(** * generate_terraform_ctags.py: a shallow embedding and its properties

    The script drives two external programs (terraform and ctags).  Text is
    modelled as [string] (the UTF-8 bytes of well-formed text), Python
    dictionaries as insertion-ordered association lists, the working
    directory as a finite map from file names to contents, and the script's
    effects as a state-and-exception monad over that directory together with
    a log of the operations performed. *)

From Stdlib Require Import String Ascii List ZArith Bool Lia.
From stdpp Require Import gmap strings.
Import ListNotations.

Local Open Scope string_scope.
Local Open Scope list_scope.

(** ** Text *)

Module Text.

Definition dquote : string := String "034"%char EmptyString.
Definition newline : string := String "010"%char EmptyString.

Definition is_empty (s : string) : bool :=
  match s with EmptyString => true | String _ _ => false end.

(** [s.startswith(p)] *)
Fixpoint starts_with (p s : string) : bool :=
  match p, s with
  | EmptyString, _ => true
  | String _ _, EmptyString => false
  | String a p', String b s' => Ascii.eqb a b && starts_with p' s'
  end.

(** [str.replace(old, new)] for a non-empty [old]: the text is scanned from
    the left, every occurrence found is replaced, and the scan resumes
    after the occurrence (so occurrences never overlap).  [skip] counts the
    characters of the current occurrence still to be passed over. *)
Fixpoint replace_from (old new s : string) (skip : nat) : string :=
  match s with
  | EmptyString => EmptyString
  | String c s' =>
      match skip with
      | S k => replace_from old new s' k
      | O =>
          if starts_with old s
          then new +:+ replace_from old new s' (String.length old - 1)
          else String c (replace_from old new s' 0)
      end
  end.

(** [str.replace("", new)] puts [new] before every character and at the
    end. *)
Fixpoint intersperse_all (new s : string) : string :=
  match s with
  | EmptyString => new
  | String c s' => new +:+ String c (intersperse_all new s')
  end.

Definition replace (old new s : string) : string :=
  if is_empty old then intersperse_all new s else replace_from old new s 0.

(** Does [old] occur somewhere in [s]? *)
Fixpoint occurs (old s : string) : bool :=
  starts_with old s ||
  match s with
  | EmptyString => false
  | String _ s' => occurs old s'
  end.

Fixpoint drop (n : nat) (s : string) : string :=
  match n, s with
  | O, _ => s
  | S k, EmptyString => EmptyString
  | S k, String _ s' => drop k s'
  end.

Fixpoint map_chars (f : ascii -> ascii) (s : string) : string :=
  match s with
  | EmptyString => EmptyString
  | String c s' => String (f c) (map_chars f s')
  end.

Fixpoint contains_char (c : ascii) (s : string) : bool :=
  match s with
  | EmptyString => false
  | String d s' => Ascii.eqb c d || contains_char c s'
  end.

(** The lines of a text: every line is ended by a newline character; a
    last piece without one is a line too. *)
Fixpoint lines_from (cur s : string) : list string :=
  match s with
  | EmptyString => if is_empty cur then [] else [cur]
  | String c s' =>
      if Ascii.eqb c "010"%char
      then cur :: lines_from EmptyString s'
      else lines_from (cur +:+ String c EmptyString) s'
  end.

Definition splitlines (s : string) : list string := lines_from EmptyString s.

(** [''.join(l)] *)
Fixpoint join (l : list string) : string :=
  match l with
  | [] => EmptyString
  | x :: l' => x +:+ join l'
  end.

(** The words of the specification: remove [p] once, at the start only. *)
Definition strip_leading_once (p s : string) : string :=
  if starts_with p s then drop (String.length p) s else s.

Definition slash_to_underscore (c : ascii) : ascii :=
  if Ascii.eqb c "/"%char then "_"%char else c.

End Text.

(** ** The provider name (line 128) *)

Definition REGISTRY_PREFIX : string := "registry.terraform.io/".

Definition provider_name (provider_spec : string) : string :=
  Text.replace "/" "_" (Text.replace REGISTRY_PREFIX "" provider_spec).

(** The name as the specification words it: one leading registry prefix is
    stripped, then every path separator becomes an underscore. *)
Definition spec_provider_name (provider_spec : string) : string :=
  Text.map_chars Text.slash_to_underscore
    (Text.strip_leading_once REGISTRY_PREFIX provider_spec).

(** ** Values produced by the parsers

    [hcl.load] and [json.load] return nested Python values.  Dictionaries
    keep their insertion order; their keys are strings. *)

#[local] Set Warnings "-register-all".

Inductive pyval : Type :=
| PNone
| PBool (b : bool)
| PInt (z : Z)
| PStr (s : string)
| PList (l : list pyval)
| PDict (d : list (string * pyval)).

Module Dict.

Section Ops.
Context {V : Type}.

Fixpoint get (k : string) (d : list (string * V)) : option V :=
  match d with
  | [] => None
  | (k', v) :: d' => if String.eqb k k' then Some v else get k d'
  end.

(** [d[k] = v]: an existing key keeps its position, a new key goes last. *)
Fixpoint set (k : string) (v : V) (d : list (string * V)) : list (string * V) :=
  match d with
  | [] => [(k, v)]
  | (k', v') :: d' =>
      if String.eqb k k' then (k', v) :: d' else (k', v') :: set k v d'
  end.

Definition keys (d : list (string * V)) : list string := map fst d.

Definition get_default (k : string) (dflt : V) (d : list (string * V)) : V :=
  match get k d with Some v => v | None => dflt end.
End Ops.

End Dict.

(** ** Exceptions, arguments, the working directory *)

(** A command-line argument is a plain string or a [pathlib] path
    [WORKING_DIRECTORY / name]. *)
Inductive arg : Type :=
| Str (s : string)
| InWorkdir (name : string).

Inductive exn : Type :=
| CalledProcessError (returncode : Z) (cmd : list arg)
| FileNotFoundError (name : string)
| AttributeError (attr : string)
| ParseError (msg : string).

Inductive result (A : Type) : Type :=
| Ok (a : A)
| Raise (e : exn).
Arguments Ok {A} a.
Arguments Raise {A} e.

(** What the script does to its environment, in order. *)
Inductive event : Type :=
| EvMakedirs
| EvOpen (name : string)
| EvWrite (name data : string)
| EvExec (argv : list arg) (stdout : option string) (returncode : Z)
| EvUnlink (name : string).

(** The working directory is absent ([None]) or holds files, keyed by their
    name inside it. *)
Record world : Type := World {
  fs : option (gmap string string);
  log : list event
}.

Definition WORKING_DIRECTORY : string := "/tmp/generate_terraform_ctags".
Definition CTAGS_COMMAND : string := "ctags".
Definition TERRAFORM_COMMAND : string := "terraform".
Definition TERRAFORM_SCHEMAS_FILENAME : string := "providers_schemas.json".
Definition TERRAFORM_SCRIPT_FILENAME : string := "generate_schemas_script.tf".
Definition TERRAFORM_LOCK_FILENAME : string := ".terraform.lock.hcl".
Definition MAIN_TF : string := "main.tf".

Definition provider_block (name source : string) : string :=
  "    " +:+ name +:+ " = {" +:+ Text.newline +:+
  "      source  = " +:+ Text.dquote +:+ source +:+ Text.dquote +:+ Text.newline +:+
  "    }" +:+ Text.newline.

Definition TERRAFORM_PROVIDERS_SCRIPT : string :=
  Text.newline +:+
  "terraform {" +:+ Text.newline +:+
  "  required_providers {" +:+ Text.newline +:+
  provider_block "aws" "hashicorp/aws" +:+
  provider_block "azurerm" "hashicorp/azurerm" +:+
  provider_block "dns" "hashicorp/dns" +:+
  provider_block "helm" "hashicorp/helm" +:+
  provider_block "google" "hashicorp/google" +:+
  provider_block "kubectl" "gavinbunney/kubectl" +:+
  provider_block "kubernetes" "hashicorp/kubernetes" +:+
  provider_block "opentelekomcloud" "opentelekomcloud/opentelekomcloud" +:+
  provider_block "proxmox" "bpg/proxmox" +:+
  "  }" +:+ Text.newline +:+
  "}" +:+ Text.newline.

(** ** Python operations on parsed values *)

Definition py_truthy (v : pyval) : bool :=
  match v with
  | PNone => false
  | PBool b => b
  | PInt z => negb (Z.eqb z 0)
  | PStr s => negb (Text.is_empty s)
  | PList l => match l with [] => false | _ => true end
  | PDict d => match d with [] => false | _ => true end
  end.

(** [a or b] *)
Definition py_or (a b : pyval) : pyval := if py_truthy a then a else b.

(** [v.get(key, dflt)]; only dictionaries have the method. *)
Definition py_get (v : pyval) (key : string) (dflt : pyval) : result pyval :=
  match v with
  | PDict d => Ok (Dict.get_default key dflt d)
  | _ => Raise (AttributeError "get")
  end.

Definition py_items (v : pyval) : result (list (string * pyval)) :=
  match v with
  | PDict d => Ok d
  | _ => Raise (AttributeError "items")
  end.

Definition py_keys (v : pyval) : result (list string) :=
  match v with
  | PDict d => Ok (Dict.keys d)
  | _ => Raise (AttributeError "keys")
  end.

(** ** The declaration lines (lines 132 and 135) *)

Definition quoted (s : string) : string := Text.dquote +:+ s +:+ Text.dquote.

Definition declaration (kind name : string) : string :=
  kind +:+ " " +:+ quoted name +:+ " " +:+ quoted name +:+ " {}".

Definition resource_line (resource_schema : string) : string :=
  declaration "resource" resource_schema +:+ Text.newline.

Definition data_line (data_source_schema : string) : string :=
  declaration "data" data_source_schema +:+ Text.newline.

(** ** The monad of the script: state and exceptions *)

Definition M (A : Type) : Type := world -> result A * world.

Definition ret {A} (a : A) : M A := fun w => (Ok a, w).

Definition raise {A} (e : exn) : M A := fun w => (Raise e, w).

Definition bind {A B} (m : M A) (k : A -> M B) : M B :=
  fun w =>
    match m w with
    | (Ok a, w') => k a w'
    | (Raise e, w') => (Raise e, w')
    end.

Definition lift {A} (r : result A) : M A := fun w => (r, w).

Declare Scope script_scope.
Delimit Scope script_scope with script.
Notation "x <- m ;; k" := (bind m (fun x => k))
  (at level 100, m at next level, k at level 200, right associativity) : script_scope.
Notation "m ;; k" := (bind m (fun _ => k))
  (at level 100, k at level 200, right associativity) : script_scope.
Local Open Scope script_scope.

Fixpoint for_each {A} (l : list A) (body : A -> M unit) : M unit :=
  match l with
  | [] => ret tt
  | x :: l' => body x ;; for_each l' body
  end.

Definition emit (e : event) (w : world) : list event := log w ++ [e].

(** [os.makedirs(WORKING_DIRECTORY, exist_ok=True)] *)
Definition makedirs : M unit := fun w =>
  (Ok tt, {| fs := Some (default ∅ (fs w)); log := emit EvMakedirs w |}).

(** [open(WORKING_DIRECTORY / name, 'w')]: creates or truncates the file. *)
Definition open_w (name : string) : M unit := fun w =>
  match fs w with
  | None => (Raise (FileNotFoundError name), w)
  | Some files =>
      (Ok tt, {| fs := Some (<[name := EmptyString]> files); log := emit (EvOpen name) w |})
  end.

(** [file.write(data)] on the file opened as [name]: the data is appended;
    it is lost if the file has been removed meanwhile. *)
Definition fwrite (name data : string) : M unit := fun w =>
  (Ok tt,
   {| fs := match fs w with
            | Some files =>
                match files !! name with
                | Some old => Some (<[name := old +:+ data]> files)
                | None => Some files
                end
            | None => None
            end;
      log := emit (EvWrite name data) w |}).

(** [open(WORKING_DIRECTORY / name)] followed by reading the whole file. *)
Definition read_file (name : string) : M string := fun w =>
  match fs w with
  | Some files =>
      match files !! name with
      | Some text => (Ok text, w)
      | None => (Raise (FileNotFoundError name), w)
      end
  | None => (Raise (FileNotFoundError name), w)
  end.

(** [os.unlink(WORKING_DIRECTORY / name)] *)
Definition unlink (name : string) : M unit := fun w =>
  match fs w with
  | Some files =>
      match files !! name with
      | Some _ => (Ok tt, {| fs := Some (delete name files); log := emit (EvUnlink name) w |})
      | None => (Raise (FileNotFoundError name), w)
      end
  | None => (Raise (FileNotFoundError name), w)
  end.

(** ** Sample environments

    Concrete tools, parsers and worlds on which the script is run below. *)

(** A tool that exits with status 0 and leaves the files as they are. *)
Definition quiet_tool (argv : list arg) (stdout : option string) (w : world)
  : Z * option (gmap string string) := (0%Z, fs w).

(** A tool that exits with status 1 and leaves the files as they are. *)
Definition failing_tool (argv : list arg) (stdout : option string) (w : world)
  : Z * option (gmap string string) := (1%Z, fs w).

Definition sample_format (v : pyval) : string := "?".

Definition DNS_PROVIDER : string := "registry.terraform.io/hashicorp/dns".

(** A lock file giving the dns provider version 3.2.4. *)
Definition dns_lock (attributes : list (string * pyval)) : pyval :=
  PDict [("provider",
          PDict [(DNS_PROVIDER, PDict (("version", PStr "3.2.4") :: attributes))])].

(** A schema export with the dns provider alone, which has the resource
    [dns_a_record_set] and no data sources. *)
Definition dns_schema (body : pyval) : pyval :=
  PDict [("format_version", PStr "1.0");
         ("provider_schemas",
          PDict [(DNS_PROVIDER,
                  PDict [("resource_schemas", PDict [("dns_a_record_set", body)])])])].

Definition sample_lock : pyval := dns_lock [("hashes", PList [PStr "h1:abc"])].

Definition sample_schema : pyval := dns_schema (PDict [("version", PInt 0)]).

Definition sample_hcl_load (text : string) : result pyval := Ok sample_lock.
Definition sample_json_load (text : string) : result pyval := Ok sample_schema.

Definition sample_files : gmap string string :=
  <[TERRAFORM_LOCK_FILENAME := "lock"]> (<[TERRAFORM_SCHEMAS_FILENAME := "schemas"]> ∅).

Definition sample_world : world := {| fs := Some sample_files; log := [] |}.

Definition empty_world : world := {| fs := Some ∅; log := [] |}.

(** The working directory of a later run: a tag file is there already. *)
Definition later_world : world :=
  {| fs := Some (<["hashicorp_dns-3.2.4.hcl.tags" := "tags"]> sample_files);
     log := [EvMakedirs] |}.

Definition AWS_PROVIDER : string := "registry.terraform.io/hashicorp/aws".

Definition sample_resources : list string := ["aws_instance"; "aws_vpc"].
Definition sample_data_sources : list string := ["aws_ami"].

(** A provider schema with resources only. *)
Definition aws_schema : list (string * pyval) :=
  [("resource_schemas", PDict [("aws_instance", PDict []); ("aws_vpc", PDict [])])].

(** A provider schema without any section. *)
Definition bare_schema : list (string * pyval) := [("provider", PDict [])].

(** A provider section in which the second entry has no version. *)
Definition mixed_entries : list (string * pyval) :=
  [(DNS_PROVIDER, PDict [("version", PStr "3.2.4")]);
   (AWS_PROVIDER, PDict [("hashes", PList [PStr "h1:abc"])])].

Definition mixed_hcl_load (text : string) : result pyval :=
  Ok (PDict [("provider", PDict mixed_entries)]).

(** A tool that exits with status 0 and removes the synthetic
    configuration itself. *)
Definition cleaning_tool (argv : list arg) (stdout : option string) (w : world)
  : Z * option (gmap string string) :=
  (0%Z, match fs w with
        | Some files => Some (delete TERRAFORM_SCRIPT_FILENAME files)
        | None => None
        end).

(** A provider schema whose resource section is JSON [null]. *)
Definition null_schema : list (string * pyval) := [("resource_schemas", PNone)].

(** A schema export that lists no provider. *)
Definition empty_json_load (text : string) : result pyval :=
  Ok (PDict [("format_version", PStr "1.0")]).

Definition failing_hcl_load (text : string) : result pyval :=
  Raise (ParseError "line 1").


(** ** The script

    The external programs, the two parsers and Python's formatting of a value
    that is not a string are not part of the script: the script is modelled
    for any behaviour of them.  [run_process argv stdout w] is what running
    [argv] in the working directory does in the world [w] (with the standard
    output redirected to the file [stdout], if any): an exit status and the
    files it leaves behind. *)

Section Script.

Variable run_process :
  list arg -> option string -> world -> Z * option (gmap string string).
Variable hcl_load : string -> result pyval.
Variable json_load : string -> result pyval.
Variable format_value : pyval -> string.

#[local] Set Default Proof Using "Type".

(** [subprocess.check_call(argv, stdout=..., cwd=WORKING_DIRECTORY)] *)
Definition check_call (argv : list arg) (stdout : option string) : M unit := fun w =>
  match fs w with
  | None => (Raise (FileNotFoundError WORKING_DIRECTORY), w)
  | Some _ =>
      let '(returncode, files) := run_process argv stdout w in
      let w' := {| fs := files; log := emit (EvExec argv stdout returncode) w |} in
      if Z.eqb returncode 0 then (Ok tt, w')
      else (Raise (CalledProcessError returncode argv), w')
  end.

(** A value interpolated in an f-string. *)
Definition py_format (v : pyval) : string :=
  match v with
  | PStr s => s
  | _ => format_value v
  end.

Definition terraform_init : list arg := [Str TERRAFORM_COMMAND; Str "init"].

Definition terraform_schema : list arg :=
  [Str TERRAFORM_COMMAND; Str "providers"; Str "schema"; Str "-json"].

(** Lines 82-96. *)
Definition _generate_terraform_provider_schemas : M unit :=
  makedirs ;;
  open_w MAIN_TF ;;
  fwrite MAIN_TF TERRAFORM_PROVIDERS_SCRIPT ;;
  check_call terraform_init None ;;
  open_w TERRAFORM_SCHEMAS_FILENAME ;;
  check_call terraform_schema (Some TERRAFORM_SCHEMAS_FILENAME).

Definition output_name (provider_spec : string) (provider_version : pyval) : string :=
  provider_name provider_spec +:+ "-" +:+
  py_format (py_or provider_version (PStr "unknown")) +:+ ".hcl.tags".

Definition ctags_argv (provider_spec : string) (provider_version : pyval) : list arg :=
  [Str CTAGS_COMMAND; Str "-f";
   InWorkdir (output_name provider_spec provider_version);
   InWorkdir TERRAFORM_SCRIPT_FILENAME].

(** Lines 121-144. *)
Definition _generate_terraform_tags_for_provider
    (provider_spec : string) (provider_version : pyval)
    (resource_schemas data_source_schemas : list string) : M unit :=
  open_w TERRAFORM_SCRIPT_FILENAME ;;
  for_each resource_schemas
    (fun resource_schema =>
       fwrite TERRAFORM_SCRIPT_FILENAME (resource_line resource_schema)) ;;
  for_each data_source_schemas
    (fun data_source_schema =>
       fwrite TERRAFORM_SCRIPT_FILENAME (data_line data_source_schema)) ;;
  check_call (ctags_argv provider_spec provider_version) None ;;
  unlink TERRAFORM_SCRIPT_FILENAME.

(** Lines 106-107: the loop filling [provider_versions]. *)
Fixpoint collect_versions (entries : list (string * pyval))
    (provider_versions : list (string * pyval)) : result (list (string * pyval)) :=
  match entries with
  | [] => Ok provider_versions
  | (provider_spec, provider_data) :: rest =>
      match py_get provider_data "version" PNone with
      | Ok version => collect_versions rest (Dict.set provider_spec version provider_versions)
      | Raise e => Raise e
      end
  end.

(** Lines 103-107. *)
Definition read_provider_versions : M (list (string * pyval)) :=
  text <- read_file TERRAFORM_LOCK_FILENAME ;;
  lockfile_contents <- lift (hcl_load text) ;;
  provider <- lift (py_get lockfile_contents "provider" (PDict [])) ;;
  entries <- lift (py_items provider) ;;
  lift (collect_versions entries []).

(** Lines 113-118: the body of the loop over the providers. *)
Definition tags_step (provider_versions : list (string * pyval))
    (item : string * pyval) : M unit :=
  let provider_spec := fst item in
  let provider_schema := snd item in
  let provider_version := Dict.get_default provider_spec PNone provider_versions in
  resources <- lift (py_get provider_schema "resource_schemas" (PDict [])) ;;
  resource_schemas <- lift (py_keys resources) ;;
  data_sources <- lift (py_get provider_schema "data_source_schemas" (PDict [])) ;;
  data_source_schemas <- lift (py_keys data_sources) ;;
  _generate_terraform_tags_for_provider
    provider_spec provider_version resource_schemas data_source_schemas.

(** Lines 99-118. *)
Definition _generate_terraform_tags : M unit :=
  provider_versions <- read_provider_versions ;;
  text <- read_file TERRAFORM_SCHEMAS_FILENAME ;;
  schemas <- lift (json_load text) ;;
  provider_schemas <- lift (py_get schemas "provider_schemas" (PDict [])) ;;
  items <- lift (py_items provider_schemas) ;;
  for_each items (tags_step provider_versions).

(** Lines 147-149. *)
Definition main : M unit :=
  _generate_terraform_provider_schemas ;;
  _generate_terraform_tags.

(** ** Notions used in the statements *)

(** The chunks written to the synthetic configuration, in order. *)
Definition script_lines (resource_schemas data_source_schemas : list string) : list string :=
  map resource_line resource_schemas ++ map data_line data_source_schemas.

(** The world in which the tag tool is started: the synthetic configuration
    holds the chunks written, next to the files that were there. *)
Definition with_script (chunks : list string) (files : gmap string string) (w : world) : world :=
  {| fs := Some (<[TERRAFORM_SCRIPT_FILENAME := Text.join chunks]> files);
     log := log w ++ EvOpen TERRAFORM_SCRIPT_FILENAME
                  :: map (EvWrite TERRAFORM_SCRIPT_FILENAME) chunks |}.

(** The content of a file of the working directory, if there is one. *)
Definition file_content (name : string) (w : world) : option string :=
  match fs w with
  | Some files => files !! name
  | None => None
  end.

(** No event of the list is a process that exited with a non-zero status. *)
Definition exited_zero (e : event) : Prop :=
  match e with
  | EvExec _ _ returncode => returncode = 0%Z
  | _ => True
  end.

(** A run is sound if all its processes exited with 0, or the last thing it
    did was a process that exited with another status, and the run raised
    the corresponding error. *)
Definition sound_run {A} (r : result A) (evs : list event) : Prop :=
  Forall exited_zero evs \/
  exists pre argv stdout returncode,
    evs = pre ++ [EvExec argv stdout returncode] /\
    returncode <> 0%Z /\
    Forall exited_zero pre /\
    r = Raise (CalledProcessError returncode argv).

Definition sound {A} (m : M A) : Prop :=
  forall w, exists evs,
    log (snd (m w)) = log w ++ evs /\ sound_run (fst (m w)) evs.

(** The version stored for a lock-file entry. *)
Definition version_of (provider_data : pyval) : pyval :=
  match provider_data with
  | PDict d => Dict.get_default "version" PNone d
  | _ => PNone
  end.

Definition is_dict (v : pyval) : Prop := exists d, v = PDict d.

(** A section of a provider schema is missing or is a dictionary. *)
Definition section_ok (key : string) (provider_schema : list (string * pyval)) : Prop :=
  match Dict.get key provider_schema with
  | None => True
  | Some v => is_dict v
  end.

(** The names a section lists; none when the section is missing. *)
Definition section_keys (key : string) (provider_schema : list (string * pyval)) : list string :=
  match Dict.get key provider_schema with
  | Some (PDict d) => Dict.keys d
  | _ => []
  end.

(** What a completed loop step for one provider logs. *)
Definition provider_events (provider_versions : list (string * pyval))
    (item : string * pyval) : list event :=
  match snd item with
  | PDict provider_schema =>
      EvOpen TERRAFORM_SCRIPT_FILENAME
      :: map (EvWrite TERRAFORM_SCRIPT_FILENAME)
           (script_lines (section_keys "resource_schemas" provider_schema)
                         (section_keys "data_source_schemas" provider_schema))
      ++ [EvExec (ctags_argv (fst item)
                    (Dict.get_default (fst item) PNone provider_versions)) None 0%Z;
          EvUnlink TERRAFORM_SCRIPT_FILENAME]
  | _ => []
  end.


(** The file operations the script may perform itself: it opens (creating
    or emptying) only the provider declaration, the schema export and the
    synthetic configuration, writes only the first and the last of them, and
    removes only the synthetic configuration. *)
Definition own_file (name : string) : Prop :=
  name = MAIN_TF \/ name = TERRAFORM_SCHEMAS_FILENAME \/ name = TERRAFORM_SCRIPT_FILENAME.

Definition written_file (name : string) : Prop :=
  name = MAIN_TF \/ name = TERRAFORM_SCRIPT_FILENAME.

Definition permitted (e : event) : Prop :=
  match e with
  | EvOpen name => own_file name
  | EvWrite name _ => written_file name
  | EvUnlink name => name = TERRAFORM_SCRIPT_FILENAME
  | EvMakedirs => True
  | EvExec _ _ _ => True
  end.

Definition confined {A} (m : M A) : Prop :=
  forall w, exists evs, log (snd (m w)) = log w ++ evs /\ Forall permitted evs.


(** The world in which [terraform init] is started: the working directory
    exists and its [main.tf] holds the provider declaration. *)
Definition prepared (w : world) : world :=
  {| fs := Some (<[MAIN_TF := TERRAFORM_PROVIDERS_SCRIPT]> (default ∅ (fs w)));
     log := log w ++ [EvMakedirs; EvOpen MAIN_TF;
                      EvWrite MAIN_TF TERRAFORM_PROVIDERS_SCRIPT] |}.


(** ** Properties of the text operations *)

Lemma append_cons (c : ascii) (s t : string) :
String c s +:+ t = String c (s +:+ t).
Proof. reflexivity. Qed.

Lemma append_nil_l (t : string) : EmptyString +:+ t = t.
Proof. reflexivity. Qed.

Lemma prefix_split (p s : string) :
Text.starts_with p s = true -> s = p +:+ Text.drop (String.length p) s.
Proof.
revert s; induction p as [|a p IH]; intros s H; [reflexivity|].
destruct s as [|b s]; [discriminate|].
cbn in H. apply andb_true_iff in H as [Hab H].
apply Ascii.eqb_eq in Hab as ->.
cbn [String.length Text.drop]. rewrite append_cons. f_equal. now apply IH.
Qed.

Lemma prefix_app (p s : string) : Text.starts_with p (p +:+ s) = true.
Proof.
induction p as [|a p IH]; [reflexivity|].
rewrite append_cons. cbn. now rewrite Ascii.eqb_refl.
Qed.

Lemma replace_from_skip (old new t rest : string) :
Text.replace_from old new (t +:+ rest) (String.length t)
= Text.replace_from old new rest 0.
Proof.
induction t as [|c t IH]; [reflexivity|].
rewrite append_cons. exact IH.
Qed.

Lemma replace_from_absent (old new s : string) :
Text.occurs old s = false -> Text.replace_from old new s 0 = s.
Proof.
induction s as [|c s IH]; intros H; [reflexivity|].
cbn [Text.occurs] in H. apply orb_false_iff in H as [Hp Ho].
cbn [Text.replace_from]. rewrite Hp. f_equal. now apply IH.
Qed.

Lemma replace_leading (c : ascii) (old new rest : string) :
Text.replace (String c old) new (String c old +:+ rest)
= new +:+ Text.replace (String c old) new rest.
Proof.
unfold Text.replace. cbn [Text.is_empty].
rewrite append_cons. cbn [Text.replace_from].
rewrite <- append_cons, prefix_app. f_equal.
cbn [String.length]. rewrite Nat.sub_1_r. cbn [Nat.pred].
apply replace_from_skip.
Qed.

Lemma replace_absent (old new s : string) :
Text.occurs old s = false -> Text.replace old new s = s.
Proof.
intros H. unfold Text.replace. destruct old as [|c old].
- destruct s; discriminate.
- now apply replace_from_absent.
Qed.

Lemma replace_char (a b : ascii) (s : string) :
Text.replace (String a EmptyString) (String b EmptyString) s
= Text.map_chars (fun c => if Ascii.eqb c a then b else c) s.
Proof.
unfold Text.replace. cbn [Text.is_empty].
induction s as [|c s IH]; [reflexivity|].
cbn [Text.replace_from Text.map_chars Text.starts_with String.length].
rewrite andb_true_r, (Ascii.eqb_sym c a).
destruct (Ascii.eqb a c).
- rewrite append_cons, append_nil_l. f_equal. exact IH.
- f_equal. exact IH.
Qed.


(** ** The provider name *)

Example provider_name_aws :
  provider_name "registry.terraform.io/hashicorp/aws" = "hashicorp_aws".
Proof. reflexivity. Qed.

Example provider_name_no_prefix :
  provider_name "example.org/acme/cloud" = "example.org_acme_cloud".
Proof. reflexivity. Qed.

(** The prefix is removed wherever it stands, and as often as it stands. *)
Example provider_name_inner_prefix :
  provider_name "mirror.example/registry.terraform.io/hashicorp/dns"
  = "mirror.example_hashicorp_dns".
Proof. reflexivity. Qed.

Lemma provider_name_strips_leading (rest : string) :
  provider_name (REGISTRY_PREFIX +:+ rest) = provider_name rest.
Proof.
  unfold provider_name, REGISTRY_PREFIX.
  now rewrite replace_leading, append_nil_l.
Qed.

(** C2, as the claim states it, fails: a registry prefix that is not leading
    is removed as well. *)
Lemma provider_name_not_only_leading :
  ~ (forall provider_spec : string,
        provider_name provider_spec = spec_provider_name provider_spec).
Proof.
  intros H.
  specialize (H "mirror.example/registry.terraform.io/hashicorp/dns").
  vm_compute in H. discriminate H.
Qed.

(** C2 (amended): for a provider spec in which the registry prefix does not
    occur again once a leading occurrence has been stripped, the derived name
    is the spec without that one leading prefix and with every remaining
    path separator replaced by an underscore. *)
Theorem provider_name_single_prefix (provider_spec : string) :
  Text.occurs REGISTRY_PREFIX
    (Text.strip_leading_once REGISTRY_PREFIX provider_spec) = false ->
  provider_name provider_spec = spec_provider_name provider_spec.
Proof.
  intros Habsent. unfold provider_name, spec_provider_name.
  change "/" with (String "/"%char EmptyString).
  change "_" with (String "_"%char EmptyString).
  rewrite replace_char.
  change (fun c : ascii => if Ascii.eqb c "/" then "_"%char else c)
    with Text.slash_to_underscore.
  f_equal.
  unfold Text.strip_leading_once in *.
  destruct (Text.starts_with REGISTRY_PREFIX provider_spec) eqn:Hp.
  - rewrite (prefix_split _ _ Hp) at 1.
    unfold REGISTRY_PREFIX at 1 2. rewrite replace_leading, append_nil_l.
    now apply replace_absent.
  - now apply replace_absent.
Qed.

(** ** Writing the synthetic configuration *)

Lemma append_nil_r (s : string) : s +:+ EmptyString = s.
Proof. induction s as [|c s IH]; [reflexivity|]. now rewrite append_cons, IH. Qed.

Lemma append_assoc (a b c : string) : (a +:+ b) +:+ c = a +:+ (b +:+ c).
Proof.
  induction a as [|x a IH]; [reflexivity|].
  now rewrite !append_cons, IH.
Qed.

Lemma length_append (a b : string) :
  String.length (a +:+ b) = (String.length a + String.length b)%nat.
Proof.
  induction a as [|x a IH]; [reflexivity|].
  rewrite append_cons. cbn [String.length]. now rewrite IH.
Qed.

Lemma join_app (l k : list string) :
  Text.join (l ++ k) = Text.join l +:+ Text.join k.
Proof.
  induction l as [|x l IH]; [reflexivity|].
  cbn [app Text.join]. now rewrite IH, append_assoc.
Qed.

Lemma bind_ok {A B} (m : M A) (k : A -> M B) (w w' : world) (a : A) :
  m w = (Ok a, w') -> bind m k w = k a w'.
Proof. intros H. unfold bind. now rewrite H. Qed.

Lemma bind_raise {A B} (m : M A) (k : A -> M B) (w w' : world) (e : exn) :
  m w = (Raise e, w') -> bind m k w = (Raise e, w').
Proof. intros H. unfold bind. now rewrite H. Qed.

Lemma bind_unit_ret (m : M unit) (w : world) :
  bind m (fun _ => ret tt) w = m w.
Proof.
  unfold bind, ret. destruct (m w) as [[[]|e] w']; reflexivity.
Qed.

(** A loop of writes appends the chunks, in order, to the open file. *)
Lemma for_each_fwrite {A} (name : string) (f : A -> string) (l : list A) :
  forall (w : world) (files : gmap string string) (old : string),
    fs w = Some files ->
    files !! name = Some old ->
    for_each l (fun x => fwrite name (f x)) w
    = (Ok tt, {| fs := Some (<[name := old +:+ Text.join (map f l)]> files);
                 log := log w ++ map (EvWrite name) (map f l) |}).
Proof.
  induction l as [|x l IH]; intros w files old Hfs Hold.
  - cbn [for_each map Text.join]. unfold ret.
    rewrite append_nil_r, app_nil_r, (insert_id _ _ _ Hold).
    destruct w; cbn in *; now subst.
  - cbn [for_each]. unfold bind at 1. unfold fwrite at 1.
    rewrite Hfs, Hold.
    erewrite IH; [|reflexivity|apply lookup_insert_eq].
    cbn [fs log map Text.join]. unfold emit.
    now rewrite insert_insert_eq, append_assoc, <- app_assoc.
Qed.

(** The generator writes the file and then hands over to the tag tool. *)
Lemma tags_for_provider_unfold (provider_spec : string) (provider_version : pyval)
    (resource_schemas data_source_schemas : list string)
    (w : world) (files : gmap string string) :
  fs w = Some files ->
  _generate_terraform_tags_for_provider
    provider_spec provider_version resource_schemas data_source_schemas w
  = (check_call (ctags_argv provider_spec provider_version) None ;;
     unlink TERRAFORM_SCRIPT_FILENAME)
      (with_script (script_lines resource_schemas data_source_schemas) files w).
Proof.
  intros Hfs. unfold _generate_terraform_tags_for_provider.
  unfold bind at 1. unfold open_w at 1. rewrite Hfs.
  unfold bind at 1.
  erewrite (for_each_fwrite _ resource_line);
    [|reflexivity|apply lookup_insert_eq].
  unfold bind at 1.
  erewrite (for_each_fwrite _ data_line);
    [|reflexivity|apply lookup_insert_eq].
  cbn [fs log]. unfold with_script, script_lines, emit.
  rewrite !insert_insert_eq, append_nil_l, join_app, map_app.
  rewrite <- !app_assoc. reflexivity.
Qed.

Lemma tags_for_provider_no_workdir (provider_spec : string) (provider_version : pyval)
    (resource_schemas data_source_schemas : list string) (w : world) :
  fs w = None ->
  _generate_terraform_tags_for_provider
    provider_spec provider_version resource_schemas data_source_schemas w
  = (Raise (FileNotFoundError TERRAFORM_SCRIPT_FILENAME), w).
Proof.
  intros Hfs. unfold _generate_terraform_tags_for_provider, bind, open_w.
  now rewrite Hfs.
Qed.

(** ** The declaration lines *)

Lemma append_inv_l (a x y : string) : a +:+ x = a +:+ y -> x = y.
Proof.
  induction a as [|c a IH]; [trivial|].
  rewrite !append_cons. intros H. injection H as H. now apply IH.
Qed.

Lemma append_inv_length (a b x y : string) :
  a +:+ x = b +:+ y -> String.length a = String.length b -> a = b /\ x = y.
Proof.
  revert b; induction a as [|c a IH]; intros [|d b] H Hlen; try discriminate.
  - now split.
  - rewrite !append_cons in H. injection H as -> H.
    cbn [String.length] in Hlen. injection Hlen as Hlen.
    destruct (IH b H Hlen) as [-> ->]. now split.
Qed.

Lemma declaration_inj (kind a b : string) :
  declaration kind a = declaration kind b -> a = b.
Proof.
  unfold declaration, quoted. rewrite !append_assoc. intros H.
  do 3 apply append_inv_l in H.
  apply append_inv_length in H; [exact (proj1 H)|].
  apply (f_equal String.length) in H.
  rewrite !length_append in H. lia.
Qed.

Lemma resource_line_inj (a b : string) : resource_line a = resource_line b -> a = b.
Proof.
  unfold resource_line. intros H. apply (declaration_inj "resource").
  apply append_inv_length in H; [exact (proj1 H)|].
  apply (f_equal String.length) in H. rewrite !length_append in H. lia.
Qed.

Lemma data_line_inj (a b : string) : data_line a = data_line b -> a = b.
Proof.
  unfold data_line. intros H. apply (declaration_inj "data").
  apply append_inv_length in H; [exact (proj1 H)|].
  apply (f_equal String.length) in H. rewrite !length_append in H. lia.
Qed.

Lemma resource_line_not_data (a b : string) : resource_line a <> data_line b.
Proof.
  unfold resource_line, data_line, declaration. rewrite !append_assoc.
  intros H. rewrite !append_cons in H. discriminate H.
Qed.

Lemma NoDup_map_inj {A B} (f : A -> B) (l : list A) :
  (forall a b, f a = f b -> a = b) -> List.NoDup l -> List.NoDup (map f l).
Proof.
  intros Hinj Hl. induction Hl as [|x l Hx Hl IH]; cbn [map]; constructor; auto.
  intros Hin. apply List.in_map_iff in Hin as (y & Hy & Hin).
  apply Hinj in Hy. now subst.
Qed.

Lemma script_lines_NoDup (resource_schemas data_source_schemas : list string) :
  List.NoDup resource_schemas -> List.NoDup data_source_schemas ->
  List.NoDup (script_lines resource_schemas data_source_schemas).
Proof.
  intros Hr Hd. unfold script_lines. apply List.NoDup_app.
  - apply NoDup_map_inj; [apply resource_line_inj|exact Hr].
  - apply NoDup_map_inj; [apply data_line_inj|exact Hd].
  - intros c Hc Hc'.
    apply List.in_map_iff in Hc as (r & <- & _).
    apply List.in_map_iff in Hc' as (d & Heq & _).
    symmetry in Heq. now apply resource_line_not_data in Heq.
Qed.

Lemma script_lines_In (resource_schemas data_source_schemas : list string) (c : string) :
  List.In c (script_lines resource_schemas data_source_schemas) <->
  (exists r, List.In r resource_schemas /\ c = resource_line r) \/
  (exists d, List.In d data_source_schemas /\ c = data_line d).
Proof.
  unfold script_lines. rewrite List.in_app_iff, !List.in_map_iff.
  split; intros [(x & H1 & H2)|(x & H1 & H2)]; [left|right|left|right];
    exists x; auto.
Qed.

(** ** The lines of the written text *)

Lemma contains_char_append (c : ascii) (a b : string) :
  Text.contains_char c (a +:+ b) = Text.contains_char c a || Text.contains_char c b.
Proof.
  induction a as [|x a IH]; [reflexivity|].
  rewrite append_cons. cbn [Text.contains_char]. now rewrite IH, orb_assoc.
Qed.

Lemma lines_from_line (x cur rest : string) :
  Text.contains_char "010" x = false ->
  Text.lines_from cur (x +:+ Text.newline +:+ rest)
  = (cur +:+ x) :: Text.lines_from EmptyString rest.
Proof.
  revert cur; induction x as [|c x IH]; intros cur Hx.
  - rewrite append_nil_l, append_nil_r. reflexivity.
  - cbn [Text.contains_char] in Hx. apply orb_false_iff in Hx as [Hc Hx].
    rewrite append_cons. cbn [Text.lines_from].
    rewrite Ascii.eqb_sym, Hc, IH by exact Hx.
    now rewrite append_assoc.
Qed.

Lemma declaration_one_line (kind name : string) :
  Text.contains_char "010" kind = false ->
  Text.contains_char "010" name = false ->
  Text.contains_char "010" (declaration kind name) = false.
Proof.
  intros Hk Hn. unfold declaration, quoted.
  rewrite !contains_char_append, Hk, Hn. reflexivity.
Qed.

Lemma splitlines_join (f : string -> string) (l : list string) (rest : string) :
  (forall x, List.In x l -> Text.contains_char "010" (f x) = false) ->
  Text.lines_from EmptyString
    (Text.join (map (fun x => f x +:+ Text.newline) l) +:+ rest)
  = map f l ++ Text.lines_from EmptyString rest.
Proof.
  induction l as [|x l IH]; intros H; [reflexivity|].
  cbn [map Text.join app]. rewrite !append_assoc.
  rewrite lines_from_line by (apply H; now left).
  rewrite append_nil_l. f_equal. apply IH. intros y Hy. apply H. now right.
Qed.

Lemma script_lines_splitlines (resource_schemas data_source_schemas : list string) :
  (forall n, List.In n (resource_schemas ++ data_source_schemas) ->
             Text.contains_char "010" n = false) ->
  Text.splitlines (Text.join (script_lines resource_schemas data_source_schemas))
  = map (declaration "resource") resource_schemas
    ++ map (declaration "data") data_source_schemas.
Proof.
  intros H. unfold Text.splitlines, script_lines. rewrite join_app.
  unfold resource_line, data_line.
  rewrite (splitlines_join (declaration "resource")).
  - f_equal.
    rewrite <- (append_nil_r (Text.join _)).
    rewrite (splitlines_join (declaration "data")).
    + apply app_nil_r.
    + intros x Hx. apply declaration_one_line; [reflexivity|].
      apply H, List.in_app_iff. now right.
  - intros x Hx. apply declaration_one_line; [reflexivity|].
    apply H, List.in_app_iff. now left.
Qed.

(** ** The synthetic configuration file *)

(** C1: the generator starts the tag tool on a file made of one declaration
    chunk per resource name and one per data-source name: every such line
    occurs exactly once, nothing else is written, each line names the type
    twice (as type and as label) with an empty body, and when no name
    contains a line break the lines of the file are exactly these
    declarations. *)
Theorem synthetic_file_one_line_per_name
    (provider_spec : string) (provider_version : pyval)
    (resource_schemas data_source_schemas : list string)
    (w : world) (files : gmap string string) :
  List.NoDup resource_schemas ->
  List.NoDup data_source_schemas ->
  fs w = Some files ->
  let chunks := script_lines resource_schemas data_source_schemas in
  let started := with_script chunks files w in
  _generate_terraform_tags_for_provider
    provider_spec provider_version resource_schemas data_source_schemas w
  = (check_call (ctags_argv provider_spec provider_version) None ;;
     unlink TERRAFORM_SCRIPT_FILENAME) started
  /\ file_content TERRAFORM_SCRIPT_FILENAME started = Some (Text.join chunks)
  /\ (forall r, List.In r resource_schemas ->
        count_occ string_dec chunks (resource_line r) = 1%nat)
  /\ (forall d, List.In d data_source_schemas ->
        count_occ string_dec chunks (data_line d) = 1%nat)
  /\ (forall c, List.In c chunks ->
        (exists r, List.In r resource_schemas /\ c = resource_line r) \/
        (exists d, List.In d data_source_schemas /\ c = data_line d))
  /\ (forall n,
        resource_line n
        = "resource " +:+ Text.dquote +:+ n +:+ Text.dquote +:+ " "
          +:+ Text.dquote +:+ n +:+ Text.dquote +:+ " {}" +:+ Text.newline
        /\ data_line n
        = "data " +:+ Text.dquote +:+ n +:+ Text.dquote +:+ " "
          +:+ Text.dquote +:+ n +:+ Text.dquote +:+ " {}" +:+ Text.newline)
  /\ ((forall n, List.In n (resource_schemas ++ data_source_schemas) ->
                 Text.contains_char "010" n = false) ->
      Text.splitlines (Text.join chunks)
      = map (declaration "resource") resource_schemas
        ++ map (declaration "data") data_source_schemas).
Proof.
  intros Hr Hd Hfs chunks started.
  pose proof (script_lines_NoDup _ _ Hr Hd) as Hnd.
  pose proof (proj1 (List.NoDup_count_occ' string_dec _) Hnd) as Hcount.
  split; [now apply tags_for_provider_unfold|].
  split; [unfold file_content, started, with_script; cbn [fs];
          apply lookup_insert_eq|].
  split; [intros r Hin; apply Hcount, script_lines_In; left; eauto|].
  split; [intros d Hin; apply Hcount, script_lines_In; right; eauto|].
  split; [intros c Hc; now apply script_lines_In|].
  split.
  - intros n. unfold resource_line, data_line, declaration, quoted.
    rewrite !append_assoc. split; reflexivity.
  - apply script_lines_splitlines.
Qed.

(** C10: in the file handed to the tag tool all resource declarations come
    first, in the order the resource names are iterated, and all data
    declarations follow, in the order the data-source names are iterated. *)
Theorem resources_precede_data_sources
    (provider_spec : string) (provider_version : pyval)
    (resource_schemas data_source_schemas : list string)
    (w : world) (files : gmap string string) :
  fs w = Some files ->
  exists started : world,
    _generate_terraform_tags_for_provider
      provider_spec provider_version resource_schemas data_source_schemas w
    = (check_call (ctags_argv provider_spec provider_version) None ;;
       unlink TERRAFORM_SCRIPT_FILENAME) started
    /\ log started
       = log w ++ EvOpen TERRAFORM_SCRIPT_FILENAME
           :: map (fun r => EvWrite TERRAFORM_SCRIPT_FILENAME (resource_line r))
                resource_schemas
           ++ map (fun d => EvWrite TERRAFORM_SCRIPT_FILENAME (data_line d))
                data_source_schemas
    /\ file_content TERRAFORM_SCRIPT_FILENAME started
       = Some (Text.join (map resource_line resource_schemas)
               +:+ Text.join (map data_line data_source_schemas))
    /\ ((forall n, List.In n (resource_schemas ++ data_source_schemas) ->
                   Text.contains_char "010" n = false) ->
        Text.splitlines (Text.join (map resource_line resource_schemas)
                         +:+ Text.join (map data_line data_source_schemas))
        = map (declaration "resource") resource_schemas
          ++ map (declaration "data") data_source_schemas).
Proof.
  intros Hfs.
  exists (with_script (script_lines resource_schemas data_source_schemas) files w).
  split; [now apply tags_for_provider_unfold|].
  unfold with_script, script_lines, file_content. cbn [fs log].
  split; [now rewrite map_app, !map_map|].
  split; [rewrite lookup_insert_eq; now rewrite join_app|].
  intros H. rewrite <- join_app. now apply script_lines_splitlines.
Qed.

(** ** Running the tag tool and cleaning up *)

Lemma tags_for_provider_succeeds
    (provider_spec : string) (provider_version : pyval)
    (resource_schemas data_source_schemas : list string)
    (w : world) (files files' : gmap string string) :
  let chunks := script_lines resource_schemas data_source_schemas in
  let argv := ctags_argv provider_spec provider_version in
  fs w = Some files ->
  run_process argv None (with_script chunks files w) = (0%Z, Some files') ->
  is_Some (files' !! TERRAFORM_SCRIPT_FILENAME) ->
  _generate_terraform_tags_for_provider
    provider_spec provider_version resource_schemas data_source_schemas w
  = (Ok tt,
     {| fs := Some (delete TERRAFORM_SCRIPT_FILENAME files');
        log := log w ++ EvOpen TERRAFORM_SCRIPT_FILENAME
                 :: map (EvWrite TERRAFORM_SCRIPT_FILENAME) chunks
                 ++ [EvExec argv None 0%Z; EvUnlink TERRAFORM_SCRIPT_FILENAME] |}).
Proof.
  intros chunks argv Hfs Hrun [text Htext].
  rewrite (tags_for_provider_unfold _ _ _ _ _ _ Hfs).
  fold chunks argv. unfold bind, check_call, unlink.
  cbn [with_script fs]. rewrite Hrun. cbn [Z.eqb fs log]. rewrite Htext.
  unfold emit, with_script. cbn [log].
  now rewrite <- !app_assoc.
Qed.

Lemma tags_for_provider_fails
    (provider_spec : string) (provider_version : pyval)
    (resource_schemas data_source_schemas : list string)
    (w : world) (files : gmap string string)
    (returncode : Z) (left_behind : option (gmap string string)) :
  let chunks := script_lines resource_schemas data_source_schemas in
  let argv := ctags_argv provider_spec provider_version in
  fs w = Some files ->
  run_process argv None (with_script chunks files w) = (returncode, left_behind) ->
  returncode <> 0%Z ->
  _generate_terraform_tags_for_provider
    provider_spec provider_version resource_schemas data_source_schemas w
  = (Raise (CalledProcessError returncode argv),
     {| fs := left_behind;
        log := log w ++ EvOpen TERRAFORM_SCRIPT_FILENAME
                 :: map (EvWrite TERRAFORM_SCRIPT_FILENAME) chunks
                 ++ [EvExec argv None returncode] |}).
Proof.
  intros chunks argv Hfs Hrun Hcode.
  rewrite (tags_for_provider_unfold _ _ _ _ _ _ Hfs).
  fold chunks argv. unfold bind, check_call.
  cbn [with_script fs]. rewrite Hrun.
  apply Z.eqb_neq in Hcode. rewrite Hcode.
  unfold emit, with_script. cbn [log].
  now rewrite <- !app_assoc.
Qed.

(** What a completed run of the generator has done. *)
Lemma tags_for_provider_ok_inv
    (provider_spec : string) (provider_version : pyval)
    (resource_schemas data_source_schemas : list string) (w : world) :
  let chunks := script_lines resource_schemas data_source_schemas in
  let argv := ctags_argv provider_spec provider_version in
  fst (_generate_terraform_tags_for_provider
         provider_spec provider_version resource_schemas data_source_schemas w)
  = Ok tt ->
  exists files files' : gmap string string,
    fs w = Some files
    /\ run_process argv None (with_script chunks files w) = (0%Z, Some files')
    /\ is_Some (files' !! TERRAFORM_SCRIPT_FILENAME).
Proof.
  intros chunks argv Hok.
  destruct (fs w) as [files|] eqn:Hfs.
  2:{ rewrite tags_for_provider_no_workdir in Hok by exact Hfs. discriminate Hok. }
  destruct (run_process argv None (with_script chunks files w))
    as [returncode left_behind] eqn:Hrun.
  destruct (Z.eq_dec returncode 0%Z) as [->|Hne].
  2:{ rewrite (tags_for_provider_fails _ _ _ _ _ _ _ _ Hfs Hrun Hne) in Hok.
      discriminate Hok. }
  rewrite (tags_for_provider_unfold _ _ _ _ _ _ Hfs) in Hok.
  fold chunks argv in Hok. unfold bind, check_call, unlink in Hok.
  cbn [with_script fs] in Hok. rewrite Hrun in Hok. cbn [Z.eqb fs] in Hok.
  destruct left_behind as [files'|]; [|discriminate Hok].
  destruct (files' !! TERRAFORM_SCRIPT_FILENAME) as [text|] eqn:Htext;
    [|discriminate Hok].
  exists files, files'. rewrite Htext. eauto.
Qed.

(** C5: when the generator completes, the synthetic configuration is gone;
    it had been created (empty when there is nothing to declare), the tag
    tool had run on it and left it in place, and the generator removed it. *)
Theorem synthetic_file_removed
    (provider_spec : string) (provider_version : pyval)
    (resource_schemas data_source_schemas : list string) (w : world) :
  let run := _generate_terraform_tags_for_provider
               provider_spec provider_version resource_schemas data_source_schemas w in
  let chunks := script_lines resource_schemas data_source_schemas in
  let argv := ctags_argv provider_spec provider_version in
  fst run = Ok tt ->
  file_content TERRAFORM_SCRIPT_FILENAME (snd run) = None
  /\ exists files files' : gmap string string,
       fs w = Some files
       /\ run_process argv None (with_script chunks files w) = (0%Z, Some files')
       /\ is_Some (files' !! TERRAFORM_SCRIPT_FILENAME)
       /\ fs (snd run) = Some (delete TERRAFORM_SCRIPT_FILENAME files')
       /\ log (snd run)
          = log w ++ EvOpen TERRAFORM_SCRIPT_FILENAME
              :: map (EvWrite TERRAFORM_SCRIPT_FILENAME) chunks
              ++ [EvExec argv None 0%Z; EvUnlink TERRAFORM_SCRIPT_FILENAME]
       /\ (resource_schemas = [] -> data_source_schemas = [] ->
           file_content TERRAFORM_SCRIPT_FILENAME (with_script chunks files w)
           = Some EmptyString).
Proof.
  intros run chunks argv Hok. subst run.
  destruct (tags_for_provider_ok_inv _ _ _ _ _ Hok)
    as (files & files' & Hfs & Hrun & Hthere).
  rewrite (tags_for_provider_succeeds _ _ _ _ _ _ _ Hfs Hrun Hthere).
  cbn [snd fs log]. split.
  - unfold file_content. cbn [fs]. apply lookup_delete_eq.
  - exists files, files'. repeat split; eauto.
    intros -> ->. unfold file_content, with_script. cbn [fs].
    apply lookup_insert_eq.
Qed.

(** ** A failing process ends the run *)

Lemma sound_run_clean {A} (r : result A) (evs : list event) :
  Forall exited_zero evs -> sound_run r evs.
Proof. now left. Qed.

Lemma sound_silent {A} (m : M A) :
  (forall w, snd (m w) = w) -> sound m.
Proof.
  intros H w. exists []. rewrite H, app_nil_r. split; [reflexivity|].
  apply sound_run_clean. constructor.
Qed.

Lemma sound_one_event {A} (m : M A) (e : event) :
  exited_zero e ->
  (forall w, snd (m w) = w \/ log (snd (m w)) = log w ++ [e]) ->
  sound m.
Proof.
  intros He H w. destruct (H w) as [Hw|Hw].
  - exists []. rewrite Hw, app_nil_r. split; [reflexivity|].
    apply sound_run_clean. constructor.
  - exists [e]. split; [exact Hw|]. apply sound_run_clean. now repeat constructor.
Qed.

Lemma sound_ret {A} (a : A) : sound (ret a).
Proof. now apply sound_silent. Qed.

Lemma sound_lift {A} (r : result A) : sound (lift r).
Proof. now apply sound_silent. Qed.

Lemma sound_bind {A B} (m : M A) (k : A -> M B) :
  sound m -> (forall a, sound (k a)) -> sound (bind m k).
Proof.
  intros Hm Hk w. destruct (Hm w) as (e1 & Hl1 & Hs1). unfold bind.
  destruct (m w) as [[a|e] w1]; cbn [fst snd] in *.
  - destruct Hs1 as [Hclean|(? & ? & ? & ? & _ & _ & _ & Habs)]; [|discriminate Habs].
    destruct (Hk a w1) as (e2 & Hl2 & Hs2).
    exists (e1 ++ e2). split; [now rewrite Hl2, Hl1, app_assoc|].
    destruct Hs2 as [Hclean2|(pre & argv & out & code & -> & Hcode & Hpre & Hr)].
    + left. now apply Forall_app.
    + right. exists (e1 ++ pre), argv, out, code.
      split; [now rewrite app_assoc|].
      split; [exact Hcode|]. split; [now apply Forall_app|exact Hr].
  - exists e1. split; [exact Hl1|].
    destruct Hs1 as [Hclean|(pre & argv & out & code & Hev & Hcode & Hpre & Hr)].
    + now left.
    + right. exists pre, argv, out, code. repeat split; try assumption.
      now injection Hr as ->.
Qed.

Lemma sound_for_each {A} (l : list A) (body : A -> M unit) :
  (forall x, sound (body x)) -> sound (for_each l body).
Proof.
  intros Hbody. induction l as [|x l IH]; cbn [for_each].
  - apply sound_ret.
  - apply sound_bind; [apply Hbody|intros _; exact IH].
Qed.

Lemma sound_makedirs : sound makedirs.
Proof. apply (sound_one_event _ EvMakedirs); [exact I|]. intros w. now right. Qed.

Lemma sound_open_w (name : string) : sound (open_w name).
Proof.
  apply (sound_one_event _ (EvOpen name)); [exact I|].
  intros w. unfold open_w. destruct (fs w); [now right|now left].
Qed.

Lemma sound_fwrite (name data : string) : sound (fwrite name data).
Proof.
  apply (sound_one_event _ (EvWrite name data)); [exact I|]. intros w. now right.
Qed.

Lemma sound_read_file (name : string) : sound (read_file name).
Proof.
  apply sound_silent. intros w. unfold read_file.
  destruct (fs w) as [files|]; [destruct (files !! name)|]; reflexivity.
Qed.

Lemma sound_unlink (name : string) : sound (unlink name).
Proof.
  apply (sound_one_event _ (EvUnlink name)); [exact I|].
  intros w. unfold unlink.
  destruct (fs w) as [files|]; [destruct (files !! name)|]; auto.
Qed.

Lemma sound_check_call (argv : list arg) (stdout : option string) :
  sound (check_call argv stdout).
Proof.
  intros w. unfold check_call. destruct (fs w) as [files|].
  2:{ exists []. rewrite app_nil_r. split; [reflexivity|]. left. constructor. }
  destruct (run_process argv stdout w) as [code left_behind].
  exists [EvExec argv stdout code].
  destruct (Z.eqb code 0) eqn:Hcode; cbn [fst snd log]; (split; [reflexivity|]).
  - left. apply Z.eqb_eq in Hcode. now repeat constructor.
  - right. exists [], argv, stdout, code. apply Z.eqb_neq in Hcode.
    repeat split; [exact Hcode|constructor].
Qed.

Lemma sound_provider_schemas : sound _generate_terraform_provider_schemas.
Proof.
  unfold _generate_terraform_provider_schemas.
  repeat (apply sound_bind; [|intros _]);
    auto using sound_makedirs, sound_open_w, sound_fwrite, sound_check_call.
Qed.

Lemma sound_tags_for_provider (provider_spec : string) (provider_version : pyval)
    (resource_schemas data_source_schemas : list string) :
  sound (_generate_terraform_tags_for_provider
           provider_spec provider_version resource_schemas data_source_schemas).
Proof.
  unfold _generate_terraform_tags_for_provider.
  repeat (apply sound_bind; [|intros _]);
    auto using sound_open_w, sound_check_call, sound_unlink;
    apply sound_for_each; intros x; apply sound_fwrite.
Qed.

Lemma sound_tags_step (provider_versions : list (string * pyval))
    (item : string * pyval) :
  sound (tags_step provider_versions item).
Proof.
  unfold tags_step.
  repeat (apply sound_bind; [apply sound_lift|intros ?]).
  apply sound_tags_for_provider.
Qed.

Lemma sound_read_provider_versions : sound read_provider_versions.
Proof.
  unfold read_provider_versions.
  apply sound_bind; [apply sound_read_file|intros ?].
  repeat (apply sound_bind; [apply sound_lift|intros ?]).
  apply sound_lift.
Qed.

Lemma sound_tags : sound _generate_terraform_tags.
Proof.
  unfold _generate_terraform_tags.
  apply sound_bind; [apply sound_read_provider_versions|intros ?].
  apply sound_bind; [apply sound_read_file|intros ?].
  repeat (apply sound_bind; [apply sound_lift|intros ?]).
  apply sound_for_each, sound_tags_step.
Qed.

Lemma sound_main : sound main.
Proof.
  unfold main. apply sound_bind; [apply sound_provider_schemas|intros _].
  apply sound_tags.
Qed.

(** In a sound run nothing follows a process that exited with a non-zero
    status, and the run raised the error of that process. *)
Lemma sound_run_stops {A} (r : result A) (evs pre post : list event)
    (argv : list arg) (stdout : option string) (returncode : Z) :
  sound_run r evs ->
  evs = pre ++ EvExec argv stdout returncode :: post ->
  returncode <> 0%Z ->
  post = [] /\ r = Raise (CalledProcessError returncode argv).
Proof.
  intros [Hclean|(pre' & argv' & out' & code' & Hev & Hcode & Hpre & Hr)] -> Hne.
  - apply Forall_app in Hclean as [_ Hclean].
    apply Forall_cons_iff in Hclean as [Hzero _]. now elim Hne.
  - induction post as [|x post' _] using rev_ind.
    + apply app_inj_tail in Hev as [_ Heq]. injection Heq as -> -> ->.
      now split.
    + change (pre ++ EvExec argv stdout returncode :: post' ++ [x])
        with (pre ++ (EvExec argv stdout returncode :: post') ++ [x]) in Hev.
      rewrite app_assoc in Hev. apply app_inj_tail in Hev as [<- _].
      apply Forall_app in Hpre as [_ Hpre].
      apply Forall_cons_iff in Hpre as [Hzero _]. now elim Hne.
Qed.


(** C9: in a whole run of the script, a process (terraform init, the schema
    export or a tag tool call) that exits with a non-zero status is the last
    thing the run does, and the run raises the error of that process; when
    the tag tool fails, the working directory is left as the tool left it,
    the generator having removed nothing. *)
Theorem failing_process_aborts_run :
  (forall w : world, exists evs : list event,
      log (snd (main w)) = log w ++ evs
      /\ forall pre argv stdout returncode post,
           evs = pre ++ EvExec argv stdout returncode :: post ->
           returncode <> 0%Z ->
           post = [] /\ fst (main w) = Raise (CalledProcessError returncode argv))
  /\ (forall (provider_spec : string) (provider_version : pyval)
             (resource_schemas data_source_schemas : list string)
             (w : world) (files : gmap string string)
             (returncode : Z) (left_behind : option (gmap string string)),
         let chunks := script_lines resource_schemas data_source_schemas in
         let argv := ctags_argv provider_spec provider_version in
         fs w = Some files ->
         run_process argv None (with_script chunks files w) = (returncode, left_behind) ->
         returncode <> 0%Z ->
         _generate_terraform_tags_for_provider
           provider_spec provider_version resource_schemas data_source_schemas w
         = (Raise (CalledProcessError returncode argv),
            {| fs := left_behind;
               log := log w ++ EvOpen TERRAFORM_SCRIPT_FILENAME
                        :: map (EvWrite TERRAFORM_SCRIPT_FILENAME) chunks
                        ++ [EvExec argv None returncode] |})).
Proof.
  split.
  - intros w. destruct (sound_main w) as (evs & Hlog & Hsound).
    exists evs. split; [exact Hlog|].
    intros pre argv stdout returncode post Hev Hne.
    exact (sound_run_stops _ _ _ _ _ _ _ Hsound Hev Hne).
  - intros provider_spec provider_version resource_schemas data_source_schemas
      w files returncode left_behind chunks argv Hfs Hrun Hne.
    exact (tags_for_provider_fails _ _ _ _ _ _ _ _ Hfs Hrun Hne).
Qed.

(** ** Dictionaries *)

Lemma dict_get_set {V} (k k' : string) (v : V) (d : list (string * V)) :
  Dict.get k (Dict.set k' v d)
  = if String.eqb k k' then Some v else Dict.get k d.
Proof.
  induction d as [|[k0 v0] d IH]; [reflexivity|].
  cbn [Dict.set]. destruct (String.eqb k' k0) eqn:E0; cbn [Dict.get].
  - apply String.eqb_eq in E0 as ->. now destruct (String.eqb k k0).
  - rewrite IH. destruct (String.eqb k k0) eqn:E1; [|reflexivity].
    apply String.eqb_eq in E1 as ->. now rewrite String.eqb_sym, E0.
Qed.

Lemma dict_get_None {V} (k : string) (d : list (string * V)) :
  Dict.get k d = None <-> ~ List.In k (Dict.keys d).
Proof.
  induction d as [|[k0 v0] d IH]; cbn [Dict.get Dict.keys map fst List.In].
  - split; [intros _ []|reflexivity].
  - destruct (String.eqb k k0) eqn:E.
    + apply String.eqb_eq in E as ->.
      split; [discriminate|]. intros H. elim H. now left.
    + apply String.eqb_neq in E. unfold Dict.keys in IH. rewrite IH.
      split; [intros H [?|?]; [congruence|contradiction]|].
      intros H Hin. apply H. now right.
Qed.

Lemma dict_get_In {V} (k : string) (v : V) (d : list (string * V)) :
  List.NoDup (Dict.keys d) -> List.In (k, v) d -> Dict.get k d = Some v.
Proof.
  induction d as [|[k0 v0] d IH]; cbn [Dict.get Dict.keys map fst List.In];
    intros Hnd Hin; [easy|].
  apply List.NoDup_cons_iff in Hnd as [Hk0 Hnd].
  destruct Hin as [Heq|Hin].
  - injection Heq as -> ->. now rewrite String.eqb_refl.
  - destruct (String.eqb k k0) eqn:E; [|now apply IH].
    apply String.eqb_eq in E as ->. elim Hk0.
    apply List.in_map_iff. now exists (k0, v).
Qed.

Lemma dict_set_fresh {V} (k : string) (v : V) (d : list (string * V)) :
  ~ List.In k (Dict.keys d) -> Dict.set k v d = d ++ [(k, v)].
Proof.
  induction d as [|[k0 v0] d IH]; cbn [Dict.set Dict.keys map fst List.In app];
    intros Hk; [reflexivity|].
  destruct (String.eqb k k0) eqn:E.
  - apply String.eqb_eq in E as ->. elim Hk. now left.
  - f_equal. apply IH. intros Hin. apply Hk. now right.
Qed.

(** ** Reading the lock file *)

Lemma read_file_content (name : string) (w : world) :
  read_file name w
  = (match file_content name w with
     | Some text => Ok text
     | None => Raise (FileNotFoundError name)
     end, w).
Proof.
  unfold read_file, file_content.
  destruct (fs w) as [files|]; [destruct (files !! name)|]; reflexivity.
Qed.

Lemma read_provider_versions_eq (w : world) (text : string)
    (top entries : list (string * pyval)) :
  file_content TERRAFORM_LOCK_FILENAME w = Some text ->
  hcl_load text = Ok (PDict top) ->
  Dict.get_default "provider" (PDict []) top = PDict entries ->
  read_provider_versions w = (collect_versions entries [], w).
Proof.
  intros Hfile Hparse Hprov. unfold read_provider_versions, bind, lift.
  rewrite read_file_content, Hfile, Hparse. cbn [py_get].
  rewrite Hprov. cbn [py_items]. reflexivity.
Qed.

Lemma collect_versions_dicts (entries acc : list (string * pyval)) :
  Forall (fun e => is_dict (snd e)) entries ->
  List.NoDup (Dict.keys entries) ->
  (forall k, List.In k (Dict.keys entries) -> ~ List.In k (Dict.keys acc)) ->
  collect_versions entries acc
  = Ok (acc ++ map (fun e => (fst e, version_of (snd e))) entries).
Proof.
  revert acc; induction entries as [|[spec data] entries IH];
    intros acc Hdict Hnd Hfresh; cbn [collect_versions map].
  - now rewrite app_nil_r.
  - apply Forall_cons_iff in Hdict as [Hd Hdict]. cbn [snd] in Hd.
    destruct Hd as [d ->].
    cbn [Dict.keys map fst] in Hnd, Hfresh.
    apply List.NoDup_cons_iff in Hnd as [Hspec Hnd].
    cbn [py_get version_of fst snd].
    rewrite dict_set_fresh by (apply Hfresh; now left).
    rewrite IH; [now rewrite <- app_assoc|exact Hdict|exact Hnd|].
    intros k Hk. unfold Dict.keys. rewrite map_app, List.in_app_iff.
    cbn [map fst List.In]. intros [Hacc|[<-|[]]].
    + apply (Hfresh k); [now right|exact Hacc].
    + exact (Hspec Hk).
Qed.

Lemma collect_versions_absent (spec : string) (entries : list (string * pyval)) :
  forall acc provider_versions,
    collect_versions entries acc = Ok provider_versions ->
    (forall data, List.In (spec, PDict data) entries ->
                  Dict.get "version" data = None) ->
    Dict.get_default spec PNone acc = PNone ->
    Dict.get_default spec PNone provider_versions = PNone.
Proof.
  induction entries as [|[k data] entries IH];
    intros acc vs Hcollect Habsent Hacc; cbn [collect_versions] in Hcollect.
  - now injection Hcollect as <-.
  - destruct data as [| | | | |d]; try discriminate Hcollect.
    cbn [py_get] in Hcollect.
    apply (IH _ _ Hcollect); [intros data Hin; apply Habsent; now right|].
    unfold Dict.get_default. rewrite dict_get_set.
    destruct (String.eqb spec k) eqn:E; [|exact Hacc].
    apply String.eqb_eq in E as <-.
    now rewrite (Habsent d (or_introl eq_refl)).
Qed.

(** C7, as the claim states it, fails: a lock-file entry without a version
    does get an entry in the mapping, holding [None]. *)
Lemma versionless_entry_is_stored :
  ~ (forall (entries provider_versions : list (string * pyval))
            (provider_spec : string) (provider_data : list (string * pyval)),
        collect_versions entries [] = Ok provider_versions ->
        List.In (provider_spec, PDict provider_data) entries ->
        Dict.get "version" provider_data = None ->
        Dict.get provider_spec provider_versions = None).
Proof.
  intros H.
  specialize (H [(DNS_PROVIDER, PDict [])] [(DNS_PROVIDER, PNone)] DNS_PROVIDER []
                eq_refl (or_introl eq_refl) eq_refl).
  discriminate H.
Qed.

(** C7 (amended): reading the lock file yields one mapping entry per entry of
    the provider section, in the same order, holding the entry's version
    field or [None] when the entry has none; so an entry without a version is
    stored with the value [None] (which a later lookup cannot tell from a
    missing provider), and no default string is stored in its place. *)
Theorem provider_versions_from_lock_file (w : world) (text : string)
    (top entries : list (string * pyval)) :
  file_content TERRAFORM_LOCK_FILENAME w = Some text ->
  hcl_load text = Ok (PDict top) ->
  Dict.get_default "provider" (PDict []) top = PDict entries ->
  List.NoDup (Dict.keys entries) ->
  Forall (fun e => is_dict (snd e)) entries ->
  let provider_versions := map (fun e => (fst e, version_of (snd e))) entries in
  read_provider_versions w = (Ok provider_versions, w)
  /\ Dict.keys provider_versions = Dict.keys entries
  /\ (forall provider_spec provider_data,
        List.In (provider_spec, PDict provider_data) entries ->
        Dict.get provider_spec provider_versions
        = Some (Dict.get_default "version" PNone provider_data))
  /\ (forall provider_spec provider_data,
        List.In (provider_spec, PDict provider_data) entries ->
        Dict.get "version" provider_data = None ->
        Dict.get provider_spec provider_versions = Some PNone
        /\ Dict.get_default provider_spec PNone provider_versions
           = Dict.get_default provider_spec PNone []).
Proof.
  intros Hfile Hparse Hprov Hnd Hdict vs.
  assert (Hkeys : Dict.keys vs = Dict.keys entries).
  { unfold vs, Dict.keys. rewrite map_map. reflexivity. }
  assert (Hget : forall spec data, List.In (spec, PDict data) entries ->
            Dict.get spec vs = Some (Dict.get_default "version" PNone data)).
  { intros spec data Hin. apply dict_get_In; [now rewrite Hkeys|].
    unfold vs. apply List.in_map_iff. now exists (spec, PDict data). }
  split.
  - rewrite (read_provider_versions_eq _ _ _ _ Hfile Hparse Hprov).
    now rewrite collect_versions_dicts.
  - split; [exact Hkeys|]. split; [exact Hget|].
    intros spec data Hin Hnone. unfold Dict.get_default.
    rewrite (Hget _ _ Hin). unfold Dict.get_default. rewrite Hnone. now split.
Qed.

(** ** One provider of the schema export *)

Lemma tags_step_unfold (provider_versions : list (string * pyval))
    (provider_spec : string) (provider_schema : list (string * pyval)) (w : world) :
  section_ok "resource_schemas" provider_schema ->
  section_ok "data_source_schemas" provider_schema ->
  tags_step provider_versions (provider_spec, PDict provider_schema) w
  = _generate_terraform_tags_for_provider
      provider_spec (Dict.get_default provider_spec PNone provider_versions)
      (section_keys "resource_schemas" provider_schema)
      (section_keys "data_source_schemas" provider_schema) w.
Proof.
  intros Hr Hd. unfold tags_step, bind, lift. cbn [fst snd py_get].
  assert (Hsec : forall key,
             section_ok key provider_schema ->
             py_keys (Dict.get_default key (PDict []) provider_schema)
             = Ok (section_keys key provider_schema)).
  { intros key. unfold section_ok, section_keys, Dict.get_default.
    destruct (Dict.get key provider_schema) as [v|]; [intros [x ->]|];
      reflexivity. }
  now rewrite !Hsec by assumption.
Qed.

Lemma output_name_unknown (provider_spec : string) :
  output_name provider_spec PNone = provider_name provider_spec +:+ "-unknown.hcl.tags".
Proof. reflexivity. Qed.

(** C3: for a provider of the schema export that the lock file's provider
    section does not list, or lists without a version, the tag tool is told
    to write the file named after the provider and the token [unknown]. *)
Theorem missing_version_is_unknown
    (w0 : world) (text : string) (top entries provider_versions : list (string * pyval))
    (provider_spec : string) (provider_schema : list (string * pyval))
    (w : world) (files : gmap string string) :
  file_content TERRAFORM_LOCK_FILENAME w0 = Some text ->
  hcl_load text = Ok (PDict top) ->
  Dict.get_default "provider" (PDict []) top = PDict entries ->
  (forall provider_data,
      List.In (provider_spec, PDict provider_data) entries ->
      Dict.get "version" provider_data = None) ->
  fst (read_provider_versions w0) = Ok provider_versions ->
  section_ok "resource_schemas" provider_schema ->
  section_ok "data_source_schemas" provider_schema ->
  fs w = Some files ->
  tags_step provider_versions (provider_spec, PDict provider_schema) w
  = (check_call
       [Str "ctags"; Str "-f";
        InWorkdir (provider_name provider_spec +:+ "-unknown.hcl.tags");
        InWorkdir "generate_schemas_script.tf"] None ;;
     unlink TERRAFORM_SCRIPT_FILENAME)
      (with_script
         (script_lines (section_keys "resource_schemas" provider_schema)
                       (section_keys "data_source_schemas" provider_schema))
         files w).
Proof.
  intros Hfile Hparse Hprov Habsent Hread Hr Hd Hfs.
  rewrite (read_provider_versions_eq _ _ _ _ Hfile Hparse Hprov) in Hread.
  cbn [fst] in Hread.
  pose proof (collect_versions_absent _ _ _ _ Hread Habsent eq_refl) as Hnone.
  rewrite (tags_step_unfold _ _ _ _ Hr Hd), Hnone.
  rewrite (tags_for_provider_unfold _ _ _ _ _ _ Hfs).
  reflexivity.
Qed.

(** C6: a provider schema without a [resource_schemas] section, without a
    [data_source_schemas] section, or without both is handled as one that
    lists no such names: the generator is called with the empty list in
    place of the missing section, and with a tag tool that exits with 0 and
    leaves the synthetic file in place the step completes without error. *)
Theorem missing_sections_default_to_empty
    (provider_versions : list (string * pyval)) (provider_spec : string)
    (provider_schema : list (string * pyval)) (w : world) :
  let provider_version := Dict.get_default provider_spec PNone provider_versions in
  let step := tags_step provider_versions (provider_spec, PDict provider_schema) w in
  (Dict.get "resource_schemas" provider_schema = None ->
   Dict.get "data_source_schemas" provider_schema = None ->
   step = _generate_terraform_tags_for_provider provider_spec provider_version [] [] w)
  /\ (forall data_sources,
        Dict.get "resource_schemas" provider_schema = None ->
        Dict.get "data_source_schemas" provider_schema = Some (PDict data_sources) ->
        step = _generate_terraform_tags_for_provider
                 provider_spec provider_version [] (Dict.keys data_sources) w)
  /\ (forall resources,
        Dict.get "resource_schemas" provider_schema = Some (PDict resources) ->
        Dict.get "data_source_schemas" provider_schema = None ->
        step = _generate_terraform_tags_for_provider
                 provider_spec provider_version (Dict.keys resources) [] w)
  /\ (forall files files' : gmap string string,
        Dict.get "resource_schemas" provider_schema = None \/
        Dict.get "data_source_schemas" provider_schema = None ->
        section_ok "resource_schemas" provider_schema ->
        section_ok "data_source_schemas" provider_schema ->
        fs w = Some files ->
        run_process (ctags_argv provider_spec provider_version) None
          (with_script
             (script_lines (section_keys "resource_schemas" provider_schema)
                           (section_keys "data_source_schemas" provider_schema))
             files w)
        = (0%Z, Some files') ->
        is_Some (files' !! TERRAFORM_SCRIPT_FILENAME) ->
        fst step = Ok tt).
Proof.
  intros provider_version step. subst step provider_version.
  split; [|split; [|split]].
  - intros Hr Hd. rewrite tags_step_unfold; unfold section_ok, section_keys;
      rewrite ?Hr, ?Hd; now trivial.
  - intros dd Hr Hd. rewrite tags_step_unfold; unfold section_ok, section_keys, is_dict;
      rewrite ?Hr, ?Hd; eauto.
  - intros rd Hr Hd. rewrite tags_step_unfold; unfold section_ok, section_keys, is_dict;
      rewrite ?Hr, ?Hd; eauto.
  - intros files files' _ Hr Hd Hfs Hrun Hthere.
    rewrite (tags_step_unfold _ _ _ _ Hr Hd).
    now rewrite (tags_for_provider_succeeds _ _ _ _ _ _ _ Hfs Hrun Hthere).
Qed.

(** ** The dns scenario *)

Lemma for_each_one {A} (x : A) (body : A -> M unit) (w : world) :
  for_each [x] body w = body x w.
Proof. cbn [for_each]. apply bind_unit_ret. Qed.

(** C4: with the dns provider alone in the schema export, having the one
    resource [dns_a_record_set] and no data sources, and the lock file giving
    it version 3.2.4, tag generation starts the tag tool with the output file
    [hashicorp_dns-3.2.4.hcl.tags] on a synthetic file that holds exactly one
    line, the resource declaration of [dns_a_record_set]. *)
Theorem dns_scenario
    (w : world) (files : gmap string string) (lock_text schema_text : string)
    (attributes : list (string * pyval)) (body : pyval) :
  fs w = Some files ->
  files !! TERRAFORM_LOCK_FILENAME = Some lock_text ->
  files !! TERRAFORM_SCHEMAS_FILENAME = Some schema_text ->
  hcl_load lock_text = Ok (dns_lock attributes) ->
  json_load schema_text = Ok (dns_schema body) ->
  let declared :=
    "resource " +:+ Text.dquote +:+ "dns_a_record_set" +:+ Text.dquote +:+ " "
    +:+ Text.dquote +:+ "dns_a_record_set" +:+ Text.dquote +:+ " {}" in
  _generate_terraform_tags w
  = (check_call
       [Str "ctags"; Str "-f";
        InWorkdir "hashicorp_dns-3.2.4.hcl.tags";
        InWorkdir "generate_schemas_script.tf"] None ;;
     unlink "generate_schemas_script.tf")
      {| fs := Some (<["generate_schemas_script.tf" := declared +:+ Text.newline]> files);
         log := log w ++ [EvOpen "generate_schemas_script.tf";
                          EvWrite "generate_schemas_script.tf"
                            (declared +:+ Text.newline)] |}
  /\ Text.splitlines (declared +:+ Text.newline) = [declared].
Proof.
  intros Hfs Hlock Hschema Hhcl Hjson declared.
  split; [|reflexivity].
  assert (Hcontent : forall name, file_content name w = files !! name).
  { intros name. unfold file_content. now rewrite Hfs. }
  unfold dns_lock in Hhcl.
  assert (Hfile : file_content TERRAFORM_LOCK_FILENAME w = Some lock_text)
    by now rewrite Hcontent.
  pose proof (read_provider_versions_eq w lock_text _ _ Hfile Hhcl eq_refl) as Hread.
  cbn [collect_versions py_get] in Hread.
  unfold _generate_terraform_tags.
  rewrite (bind_ok _ _ _ _ _ Hread).
  unfold bind at 1. rewrite read_file_content, Hcontent, Hschema.
  unfold bind at 1, lift at 1. rewrite Hjson.
  unfold bind at 1, lift at 1, dns_schema. cbn [py_get].
  unfold bind at 1, lift at 1.
  change (Dict.get_default "provider_schemas" (PDict []) _)
    with (PDict [(DNS_PROVIDER,
                  PDict [("resource_schemas", PDict [("dns_a_record_set", body)])])]).
  cbn [py_items].
  rewrite for_each_one, tags_step_unfold;
    [|exists [("dns_a_record_set", body)]; reflexivity|exact I].
  rewrite (tags_for_provider_unfold _ _ _ _ _ _ Hfs).
  reflexivity.
Qed.

(** ** Running tag generation again *)

Lemma tags_for_provider_ok_log
    (provider_spec : string) (provider_version : pyval)
    (resource_schemas data_source_schemas : list string) (w : world) :
  let run := _generate_terraform_tags_for_provider
               provider_spec provider_version resource_schemas data_source_schemas w in
  fst run = Ok tt ->
  log (snd run)
  = log w ++ EvOpen TERRAFORM_SCRIPT_FILENAME
      :: map (EvWrite TERRAFORM_SCRIPT_FILENAME)
           (script_lines resource_schemas data_source_schemas)
      ++ [EvExec (ctags_argv provider_spec provider_version) None 0%Z;
          EvUnlink TERRAFORM_SCRIPT_FILENAME].
Proof.
  intros run Hok. subst run.
  destruct (tags_for_provider_ok_inv _ _ _ _ _ Hok)
    as (files & files' & Hfs & Hrun & Hthere).
  now rewrite (tags_for_provider_succeeds _ _ _ _ _ _ _ Hfs Hrun Hthere).
Qed.

(** What a completed step of the loop logs does not depend on the world it
    starts in. *)
Lemma tags_step_events (provider_versions : list (string * pyval))
    (item : string * pyval) :
  exists evs : list event, forall w : world,
    fst (tags_step provider_versions item w) = Ok tt ->
    log (snd (tags_step provider_versions item w)) = log w ++ evs.
Proof.
  destruct item as [spec schema]. unfold tags_step, bind, lift. cbn [fst snd].
  destruct (py_get schema "resource_schemas" (PDict [])) as [r|e];
    [|exists []; intros w H; discriminate H].
  destruct (py_keys r) as [rs|e]; [|exists []; intros w H; discriminate H].
  destruct (py_get schema "data_source_schemas" (PDict [])) as [d|e];
    [|exists []; intros w H; discriminate H].
  destruct (py_keys d) as [ds|e]; [|exists []; intros w H; discriminate H].
  eexists. intros w Hok. now apply tags_for_provider_ok_log.
Qed.

Lemma for_each_events {A} (body : A -> M unit) (l : list A) :
  (forall x, exists evs : list event, forall w : world,
        fst (body x w) = Ok tt -> log (snd (body x w)) = log w ++ evs) ->
  exists evs : list event, forall w : world,
    fst (for_each l body w) = Ok tt ->
    log (snd (for_each l body w)) = log w ++ evs.
Proof.
  intros Hbody. induction l as [|x l [evs2 IH]]; cbn [for_each].
  - exists []. intros w _. cbn. now rewrite app_nil_r.
  - destruct (Hbody x) as [evs1 H1]. exists (evs1 ++ evs2).
    intros w. unfold bind. specialize (H1 w).
    destruct (body x w) as [[[]|e] w1]; cbn [fst snd] in *; [|discriminate].
    intros Hok. now rewrite (IH w1 Hok), H1, app_assoc.
Qed.

Lemma read_provider_versions_silent (w : world) :
  snd (read_provider_versions w) = w.
Proof.
  unfold read_provider_versions, bind, lift. rewrite read_file_content.
  repeat match goal with
         | |- context [match ?x with _ => _ end] => destruct x
         end; reflexivity.
Qed.

Lemma read_provider_versions_same (w1 w2 : world) :
  file_content TERRAFORM_LOCK_FILENAME w1 = file_content TERRAFORM_LOCK_FILENAME w2 ->
  fst (read_provider_versions w1) = fst (read_provider_versions w2).
Proof.
  intros H. unfold read_provider_versions, bind, lift.
  rewrite !read_file_content, H.
  repeat match goal with
         | |- context [match ?x with _ => _ end] => destruct x
         end; reflexivity.
Qed.

(** Tag generation, with its reading and parsing spelled out. *)
Lemma tags_unfold (w : world) :
  _generate_terraform_tags w
  = match fst (read_provider_versions w) with
    | Raise e => (Raise e, w)
    | Ok provider_versions =>
        match file_content TERRAFORM_SCHEMAS_FILENAME w with
        | None => (Raise (FileNotFoundError TERRAFORM_SCHEMAS_FILENAME), w)
        | Some text =>
            match json_load text with
            | Raise e => (Raise e, w)
            | Ok schemas =>
                match py_get schemas "provider_schemas" (PDict []) with
                | Raise e => (Raise e, w)
                | Ok provider_schemas =>
                    match py_items provider_schemas with
                    | Raise e => (Raise e, w)
                    | Ok items => for_each items (tags_step provider_versions) w
                    end
                end
            end
        end
    end.
Proof.
  unfold _generate_terraform_tags. unfold bind at 1.
  pose proof (read_provider_versions_silent w) as Hsnd.
  destruct (read_provider_versions w) as [[vs|e] w']; cbn [fst snd] in *; subst w';
    [|reflexivity].
  unfold bind, lift. rewrite read_file_content.
  destruct (file_content TERRAFORM_SCHEMAS_FILENAME w) as [text|]; [|reflexivity].
  destruct (json_load text) as [schemas|e]; [|reflexivity].
  destruct (py_get schemas "provider_schemas" (PDict [])) as [ps|e]; [|reflexivity].
  destruct (py_items ps) as [items|e]; reflexivity.
Qed.

(** C8: two completed runs of tag generation that find the same lock file
    and the same schema export do the same things in the same order: they
    create the synthetic files with the same writes and start the tag tool
    with the same arguments. *)
Theorem tag_generation_repeatable (w1 w2 : world) :
  file_content TERRAFORM_LOCK_FILENAME w1 = file_content TERRAFORM_LOCK_FILENAME w2 ->
  file_content TERRAFORM_SCHEMAS_FILENAME w1 = file_content TERRAFORM_SCHEMAS_FILENAME w2 ->
  fst (_generate_terraform_tags w1) = Ok tt ->
  fst (_generate_terraform_tags w2) = Ok tt ->
  exists evs : list event,
    log (snd (_generate_terraform_tags w1)) = log w1 ++ evs
    /\ log (snd (_generate_terraform_tags w2)) = log w2 ++ evs.
Proof.
  intros Hlock Hschema. rewrite !tags_unfold.
  rewrite (read_provider_versions_same _ _ Hlock), Hschema.
  destruct (fst (read_provider_versions w2)) as [vs|e]; [|discriminate].
  destruct (file_content TERRAFORM_SCHEMAS_FILENAME w2) as [text|]; [|discriminate].
  destruct (json_load text) as [schemas|e]; [|discriminate].
  destruct (py_get schemas "provider_schemas" (PDict [])) as [ps|e]; [|discriminate].
  destruct (py_items ps) as [items|e]; [|discriminate].
  destruct (for_each_events (tags_step vs) items (tags_step_events vs)) as [evs Hevs].
  intros Hok1 Hok2. exists evs. split; now apply Hevs.
Qed.

(** ** More on the provider name *)

Lemma provider_name_as_map (provider_spec : string) :
  provider_name provider_spec
  = Text.map_chars Text.slash_to_underscore
      (Text.replace REGISTRY_PREFIX EmptyString provider_spec).
Proof.
  unfold provider_name.
  change "/" with (String "/"%char EmptyString).
  change "_" with (String "_"%char EmptyString).
  now rewrite replace_char.
Qed.

Lemma map_slash_free (s : string) :
  Text.contains_char "/" (Text.map_chars Text.slash_to_underscore s) = false.
Proof.
  induction s as [|c s IH]; [reflexivity|].
  cbn [Text.map_chars Text.contains_char]. rewrite IH, orb_false_r.
  unfold Text.slash_to_underscore.
  destruct (Ascii.eqb c "/") eqn:E; [reflexivity|].
  now rewrite Ascii.eqb_sym.
Qed.

Lemma map_slash_plain (s : string) :
  Text.contains_char "/" s = false ->
  Text.map_chars Text.slash_to_underscore s = s.
Proof.
  induction s as [|c s IH]; [reflexivity|].
  cbn [Text.map_chars Text.contains_char]. intros H.
  apply orb_false_iff in H as [Hc Hs]. rewrite (IH Hs).
  unfold Text.slash_to_underscore. now rewrite Ascii.eqb_sym, Hc.
Qed.

Lemma starts_with_contains (c : ascii) (old s : string) :
  Text.starts_with old s = true ->
  Text.contains_char c old = true -> Text.contains_char c s = true.
Proof.
  revert s; induction old as [|a old IH]; intros s Hp Hc; [discriminate Hc|].
  destruct s as [|b s]; [discriminate Hp|].
  cbn [Text.starts_with] in Hp. apply andb_true_iff in Hp as [Hab Hp].
  apply Ascii.eqb_eq in Hab as ->.
  cbn [Text.contains_char] in *. apply orb_true_iff in Hc as [Hc|Hc].
  - now rewrite Hc.
  - rewrite (IH s Hp Hc). apply orb_true_r.
Qed.

Lemma occurs_contains (c : ascii) (old s : string) :
  Text.contains_char c old = true ->
  Text.contains_char c s = false -> Text.occurs old s = false.
Proof.
  intros Hold. induction s as [|b s IH]; intros Hs.
  - destruct old; [discriminate Hold|reflexivity].
  - cbn [Text.occurs]. apply orb_false_iff. split.
    + destruct (Text.starts_with old (String b s)) eqn:Hp; [|reflexivity].
      now rewrite (starts_with_contains c _ _ Hp Hold) in Hs.
    + apply IH. cbn [Text.contains_char] in Hs.
      now apply orb_false_iff in Hs.
Qed.

Lemma provider_name_plain (s : string) :
  Text.contains_char "/" s = false -> provider_name s = s.
Proof.
  intros Hs. rewrite provider_name_as_map.
  rewrite replace_absent by (now apply (occurs_contains "/")).
  now apply map_slash_plain.
Qed.

(** X1: the derived provider name never contains a path separator. *)
Theorem provider_name_slash_free (provider_spec : string) :
  Text.contains_char "/" (provider_name provider_spec) = false.
Proof. rewrite provider_name_as_map. apply map_slash_free. Qed.

(** X2: a spec without a path separator is its own provider name, and
    deriving the name of a derived name changes nothing. *)
Theorem provider_name_idempotent (provider_spec : string) :
  (Text.contains_char "/" provider_spec = false ->
   provider_name provider_spec = provider_spec)
  /\ provider_name (provider_name provider_spec) = provider_name provider_spec.
Proof.
  split; [apply provider_name_plain|].
  apply provider_name_plain. rewrite provider_name_as_map. apply map_slash_free.
Qed.

(** X3: a registry prefix in front of a spec does not change the name, so a
    spec and its registry-qualified form share one name. *)
Theorem provider_name_ignores_registry (rest : string) :
  provider_name (REGISTRY_PREFIX +:+ rest) = provider_name rest
  /\ provider_name (REGISTRY_PREFIX +:+ REGISTRY_PREFIX +:+ rest) = provider_name rest.
Proof.
  assert (H : forall r, provider_name (REGISTRY_PREFIX +:+ r) = provider_name r).
  { intros r. unfold provider_name, REGISTRY_PREFIX.
    now rewrite replace_leading, append_nil_l. }
  split; [apply H|]. now rewrite !H.
Qed.

(** ** More on the generator *)

(** X4: a version that Python takes as false (None, the empty string, zero,
    an empty list) names the tag file with the token [unknown], exactly as a
    missing version does; a non-empty version string is used as it is. *)
Theorem falsy_version_is_unknown
    (provider_spec : string) (provider_version : pyval)
    (resource_schemas data_source_schemas : list string) (w : world) :
  py_truthy provider_version = false ->
  _generate_terraform_tags_for_provider
    provider_spec provider_version resource_schemas data_source_schemas w
  = _generate_terraform_tags_for_provider
      provider_spec PNone resource_schemas data_source_schemas w
  /\ ctags_argv provider_spec provider_version
     = [Str "ctags"; Str "-f";
        InWorkdir (provider_name provider_spec +:+ "-unknown.hcl.tags");
        InWorkdir "generate_schemas_script.tf"]
  /\ (forall version : string,
        version <> EmptyString ->
        ctags_argv provider_spec (PStr version)
        = [Str "ctags"; Str "-f";
           InWorkdir (provider_name provider_spec +:+ "-" +:+ version +:+ ".hcl.tags");
           InWorkdir "generate_schemas_script.tf"]).
Proof.
  intros Hfalsy.
  assert (Hargv : ctags_argv provider_spec provider_version
                  = ctags_argv provider_spec PNone).
  { unfold ctags_argv, output_name, py_or. now rewrite Hfalsy. }
  split; [|split].
  - unfold _generate_terraform_tags_for_provider. now rewrite Hargv.
  - rewrite Hargv. reflexivity.
  - intros version Hne. unfold ctags_argv, output_name, py_or.
    destruct version; [congruence|reflexivity].
Qed.

(** X5: when the tag tool exits with 0 but the synthetic configuration is no
    longer there afterwards, removing it fails: the generator raises
    FileNotFoundError and leaves the working directory as the tool left it. *)
Theorem tool_removed_synthetic_file
    (provider_spec : string) (provider_version : pyval)
    (resource_schemas data_source_schemas : list string)
    (w : world) (files : gmap string string)
    (left_behind : option (gmap string string)) :
  let chunks := script_lines resource_schemas data_source_schemas in
  let argv := ctags_argv provider_spec provider_version in
  fs w = Some files ->
  run_process argv None (with_script chunks files w) = (0%Z, left_behind) ->
  match left_behind with
  | Some files' => files' !! TERRAFORM_SCRIPT_FILENAME = None
  | None => True
  end ->
  _generate_terraform_tags_for_provider
    provider_spec provider_version resource_schemas data_source_schemas w
  = (Raise (FileNotFoundError TERRAFORM_SCRIPT_FILENAME),
     {| fs := left_behind;
        log := log w ++ EvOpen TERRAFORM_SCRIPT_FILENAME
                 :: map (EvWrite TERRAFORM_SCRIPT_FILENAME) chunks
                 ++ [EvExec argv None 0%Z] |}).
Proof.
  intros chunks argv Hfs Hrun Hgone.
  rewrite (tags_for_provider_unfold _ _ _ _ _ _ Hfs).
  fold chunks argv. unfold bind, check_call, unlink.
  cbn [with_script fs]. rewrite Hrun. cbn [Z.eqb fs log].
  unfold emit, with_script. cbn [log]. rewrite <- !app_assoc.
  destruct left_behind as [files'|]; [rewrite Hgone|]; reflexivity.
Qed.

(** ** Schema acquisition *)

Lemma acquisition_unfold (w : world) :
  _generate_terraform_provider_schemas w
  = (check_call terraform_init None ;;
     open_w TERRAFORM_SCHEMAS_FILENAME ;;
     check_call terraform_schema (Some TERRAFORM_SCHEMAS_FILENAME)) (prepared w).
Proof.
  unfold _generate_terraform_provider_schemas.
  unfold bind at 1. unfold makedirs at 1.
  unfold bind at 1. unfold open_w at 1. cbn [fs log].
  unfold bind at 1. unfold fwrite at 1. cbn [fs log].
  rewrite lookup_insert_eq, insert_insert_eq, append_nil_l.
  unfold prepared, emit. cbn [log]. now rewrite <- !app_assoc.
Qed.

(** X6: schema acquisition starts [terraform init] in an existing working
    directory (created if it was absent) whose [main.tf] holds exactly the
    provider declaration, whatever it held before; the other files are kept. *)
Theorem acquisition_prepares_directory (w : world) :
  _generate_terraform_provider_schemas w
  = (check_call terraform_init None ;;
     open_w TERRAFORM_SCHEMAS_FILENAME ;;
     check_call terraform_schema (Some TERRAFORM_SCHEMAS_FILENAME)) (prepared w)
  /\ file_content MAIN_TF (prepared w) = Some TERRAFORM_PROVIDERS_SCRIPT
  /\ (forall name, name <> MAIN_TF ->
        file_content name (prepared w) = file_content name w).
Proof.
  split; [apply acquisition_unfold|]. unfold file_content, prepared. cbn [fs].
  split; [apply lookup_insert_eq|].
  intros name Hne. rewrite lookup_insert_ne by congruence.
  destruct (fs w); [reflexivity|apply lookup_empty].
Qed.

Lemma acquisition_init_fails (w : world)
    (returncode : Z) (left_behind : option (gmap string string)) :
  run_process terraform_init None (prepared w) = (returncode, left_behind) ->
  returncode <> 0%Z ->
  _generate_terraform_provider_schemas w
  = (Raise (CalledProcessError returncode terraform_init),
     {| fs := left_behind;
        log := log (prepared w) ++ [EvExec terraform_init None returncode] |}).
Proof.
  intros Hrun Hne. rewrite acquisition_unfold.
  unfold bind at 1. unfold check_call at 1. cbn [prepared fs].
  fold (prepared w). rewrite Hrun.
  apply Z.eqb_neq in Hne. now rewrite Hne.
Qed.

Lemma acquisition_after_init (w : world) (files : gmap string string) :
  run_process terraform_init None (prepared w) = (0%Z, Some files) ->
  _generate_terraform_provider_schemas w
  = check_call terraform_schema (Some TERRAFORM_SCHEMAS_FILENAME)
      {| fs := Some (<[TERRAFORM_SCHEMAS_FILENAME := EmptyString]> files);
         log := log (prepared w)
                ++ [EvExec terraform_init None 0%Z; EvOpen TERRAFORM_SCHEMAS_FILENAME] |}.
Proof.
  intros Hrun. rewrite acquisition_unfold.
  unfold bind at 1. unfold check_call at 1. cbn [prepared fs].
  fold (prepared w). rewrite Hrun. cbn [Z.eqb].
  unfold bind at 1. unfold open_w at 1. cbn [fs log]. unfold emit. cbn [log].
  now rewrite <- !app_assoc.
Qed.

(** X7: when [terraform init] exits with a non-zero status, acquisition
    raises its error at once: the schema export file is neither created nor
    emptied and the export is not started. *)
Theorem init_failure_skips_export (w : world)
    (returncode : Z) (left_behind : option (gmap string string)) :
  run_process terraform_init None (prepared w) = (returncode, left_behind) ->
  returncode <> 0%Z ->
  _generate_terraform_provider_schemas w
  = (Raise (CalledProcessError returncode terraform_init),
     {| fs := left_behind;
        log := log w ++ [EvMakedirs; EvOpen MAIN_TF;
                         EvWrite MAIN_TF TERRAFORM_PROVIDERS_SCRIPT;
                         EvExec terraform_init None returncode] |}).
Proof.
  intros Hrun Hne. rewrite (acquisition_init_fails _ _ _ Hrun Hne).
  unfold prepared. cbn [log]. now rewrite <- app_assoc.
Qed.

(** X8: after a successful [terraform init] the schema export is started
    with its output file already emptied; acquisition then ends as the
    export ends: normally when it exits with 0, with its error otherwise,
    and in both cases with the files the export left (so a failed export has
    destroyed the previous schema export). *)
Theorem export_runs_on_emptied_file (w : world) (files : gmap string string)
    (returncode : Z) (left_behind : option (gmap string string)) :
  let exporting :=
    {| fs := Some (<[TERRAFORM_SCHEMAS_FILENAME := EmptyString]> files);
       log := log (prepared w)
              ++ [EvExec terraform_init None 0%Z; EvOpen TERRAFORM_SCHEMAS_FILENAME] |} in
  run_process terraform_init None (prepared w) = (0%Z, Some files) ->
  run_process terraform_schema (Some TERRAFORM_SCHEMAS_FILENAME) exporting
  = (returncode, left_behind) ->
  file_content TERRAFORM_SCHEMAS_FILENAME exporting = Some EmptyString
  /\ _generate_terraform_provider_schemas w
     = (if Z.eqb returncode 0 then Ok tt
        else Raise (CalledProcessError returncode terraform_schema),
        {| fs := left_behind;
           log := log exporting
                  ++ [EvExec terraform_schema (Some TERRAFORM_SCHEMAS_FILENAME)
                        returncode] |}).
Proof.
  intros exporting Hinit Hexport. split.
  - unfold file_content, exporting. cbn [fs]. apply lookup_insert_eq.
  - rewrite (acquisition_after_init _ _ Hinit). fold exporting.
    unfold check_call. cbn [exporting fs]. fold exporting. rewrite Hexport.
    now destruct (Z.eqb returncode 0).
Qed.

(** ** Tag generation: what can go wrong before the first provider *)

Lemma tags_lock_failure (w : world) (e : exn) :
  fst (read_provider_versions w) = Raise e ->
  _generate_terraform_tags w = (Raise e, w).
Proof. intros H. rewrite tags_unfold. now rewrite H. Qed.

Lemma read_provider_versions_missing (w : world) :
  file_content TERRAFORM_LOCK_FILENAME w = None ->
  fst (read_provider_versions w) = Raise (FileNotFoundError TERRAFORM_LOCK_FILENAME).
Proof.
  intros H. unfold read_provider_versions, bind. now rewrite read_file_content, H.
Qed.

Lemma collect_versions_not_dict (spec : string) (v : pyval)
    (entries : list (string * pyval)) :
  List.In (spec, v) entries -> ~ is_dict v ->
  forall acc, collect_versions entries acc = Raise (AttributeError "get").
Proof.
  intros Hin Hv. induction entries as [|[k data] entries IH]; [destruct Hin|].
  intros acc. cbn [collect_versions].
  destruct data as [| | | | |d]; try reflexivity.
  cbn [py_get]. apply IH. destruct Hin as [Heq|Hin]; [|exact Hin].
  injection Heq as _ <-. elim Hv. now exists d.
Qed.

(** X9: tag generation reads the lock file first and the schema export
    second; when one of them is missing it raises FileNotFoundError for that
    file and has changed nothing and started no tool. *)
Theorem tags_missing_inputs (w : world) :
  (file_content TERRAFORM_LOCK_FILENAME w = None ->
   _generate_terraform_tags w
   = (Raise (FileNotFoundError TERRAFORM_LOCK_FILENAME), w))
  /\ (forall provider_versions,
        fst (read_provider_versions w) = Ok provider_versions ->
        file_content TERRAFORM_SCHEMAS_FILENAME w = None ->
        _generate_terraform_tags w
        = (Raise (FileNotFoundError TERRAFORM_SCHEMAS_FILENAME), w)).
Proof.
  split.
  - intros H. apply tags_lock_failure. now apply read_provider_versions_missing.
  - intros vs Hvs H. rewrite tags_unfold. now rewrite Hvs, H.
Qed.

(** X10: a lock file that does not parse, or in which some entry of the
    provider section is not a mapping, ends tag generation with the parser's
    error, respectively an AttributeError, before anything is written. *)
Theorem tags_unusable_lock_file (w : world) (text : string) :
  file_content TERRAFORM_LOCK_FILENAME w = Some text ->
  (forall e, hcl_load text = Raise e -> _generate_terraform_tags w = (Raise e, w))
  /\ (forall top entries provider_spec provider_data,
        hcl_load text = Ok (PDict top) ->
        Dict.get_default "provider" (PDict []) top = PDict entries ->
        List.In (provider_spec, provider_data) entries ->
        ~ is_dict provider_data ->
        _generate_terraform_tags w = (Raise (AttributeError "get"), w)).
Proof.
  intros Hfile. split.
  - intros e He. apply tags_lock_failure.
    unfold read_provider_versions, bind, lift.
    now rewrite read_file_content, Hfile, He.
  - intros top entries spec data Hparse Hprov Hin Hdata.
    apply tags_lock_failure.
    rewrite (read_provider_versions_eq _ _ _ _ Hfile Hparse Hprov). cbn [fst].
    exact (collect_versions_not_dict _ _ _ Hin Hdata []).
Qed.

(** X11: the empty default stands in for a missing section only: a provider
    schema, or a section of it, that is present but not a mapping (JSON
    [null], say) makes the loop step raise an AttributeError before anything
    is written. *)
Theorem present_non_mapping_raises
    (provider_versions : list (string * pyval)) (provider_spec : string) (w : world) :
  (forall provider_schema,
      ~ is_dict provider_schema ->
      tags_step provider_versions (provider_spec, provider_schema) w
      = (Raise (AttributeError "get"), w))
  /\ (forall provider_schema resources,
        Dict.get "resource_schemas" provider_schema = Some resources ->
        ~ is_dict resources ->
        tags_step provider_versions (provider_spec, PDict provider_schema) w
        = (Raise (AttributeError "keys"), w))
  /\ (forall provider_schema data_sources,
        section_ok "resource_schemas" provider_schema ->
        Dict.get "data_source_schemas" provider_schema = Some data_sources ->
        ~ is_dict data_sources ->
        tags_step provider_versions (provider_spec, PDict provider_schema) w
        = (Raise (AttributeError "keys"), w)).
Proof.
  assert (Hkeys : forall v, ~ is_dict v -> py_keys v = Raise (AttributeError "keys")).
  { intros v Hv. destruct v; try reflexivity. elim Hv. now eexists. }
  split; [|split].
  - intros schema Hs. unfold tags_step, bind, lift. cbn [fst snd].
    destruct schema; try reflexivity. elim Hs. now eexists.
  - intros d r Hr Hnot. unfold tags_step, bind, lift. cbn [fst snd py_get].
    unfold Dict.get_default. now rewrite Hr, (Hkeys _ Hnot).
  - intros d ds Hr Hd Hnot. unfold tags_step, bind, lift. cbn [fst snd py_get].
    unfold section_ok in Hr. unfold Dict.get_default. rewrite Hd, (Hkeys _ Hnot).
    destruct (Dict.get "resource_schemas" d) as [r|]; [|reflexivity].
    destruct Hr as [rd ->]. reflexivity.
Qed.

(** X12: when the schema export lists no provider (no [provider_schemas]
    key, or an empty one), tag generation completes without starting the tag
    tool and without changing the working directory. *)
Theorem no_providers_no_effect (w : world) (provider_versions : list (string * pyval))
    (text : string) (top : list (string * pyval)) :
  fst (read_provider_versions w) = Ok provider_versions ->
  file_content TERRAFORM_SCHEMAS_FILENAME w = Some text ->
  json_load text = Ok (PDict top) ->
  Dict.get_default "provider_schemas" (PDict []) top = PDict [] ->
  _generate_terraform_tags w = (Ok tt, w).
Proof.
  intros Hvs Hfile Hjson Hnone. rewrite tags_unfold, Hvs, Hfile, Hjson.
  cbn [py_get]. now rewrite Hnone.
Qed.

(** ** Tag generation: completed runs *)

Lemma tags_step_ok_sections (provider_versions : list (string * pyval))
    (item : string * pyval) (w : world) :
  fst (tags_step provider_versions item w) = Ok tt ->
  exists provider_schema,
    snd item = PDict provider_schema
    /\ section_ok "resource_schemas" provider_schema
    /\ section_ok "data_source_schemas" provider_schema.
Proof.
  destruct item as [spec schema]. unfold tags_step, bind, lift. cbn [fst snd].
  destruct schema as [| | | | |d]; try discriminate.
  cbn [py_get]. unfold section_ok, Dict.get_default. intros Hok.
  exists d. split; [reflexivity|].
  destruct (Dict.get "resource_schemas" d) as [r|].
  - destruct r as [| | | | |rd]; try discriminate Hok.
    split; [now eexists|].
    destruct (Dict.get "data_source_schemas" d) as [s|]; [|exact I].
    destruct s as [| | | | |sd]; try discriminate Hok. now eexists.
  - split; [exact I|].
    destruct (Dict.get "data_source_schemas" d) as [s|]; [|exact I].
    destruct s as [| | | | |sd]; try discriminate Hok. now eexists.
Qed.

Lemma tags_step_ok_generator (provider_versions : list (string * pyval))
    (item : string * pyval) (w : world) :
  fst (tags_step provider_versions item w) = Ok tt ->
  exists provider_schema,
    snd item = PDict provider_schema
    /\ tags_step provider_versions item w
       = _generate_terraform_tags_for_provider
           (fst item) (Dict.get_default (fst item) PNone provider_versions)
           (section_keys "resource_schemas" provider_schema)
           (section_keys "data_source_schemas" provider_schema) w.
Proof.
  intros Hok.
  destruct (tags_step_ok_sections _ _ _ Hok) as (d & Hitem & Hr & Hd).
  exists d. split; [exact Hitem|].
  destruct item as [spec schema]. cbn [fst snd] in *. subst schema.
  now apply tags_step_unfold.
Qed.

Lemma tags_step_ok_log (provider_versions : list (string * pyval))
    (item : string * pyval) (w : world) :
  fst (tags_step provider_versions item w) = Ok tt ->
  log (snd (tags_step provider_versions item w))
  = log w ++ provider_events provider_versions item.
Proof.
  intros Hok.
  destruct (tags_step_ok_generator _ _ _ Hok) as (d & Hitem & Heq).
  rewrite Heq in Hok |- *. unfold provider_events. rewrite Hitem.
  now apply tags_for_provider_ok_log.
Qed.

Lemma tags_step_ok_clean (provider_versions : list (string * pyval))
    (item : string * pyval) (w : world) :
  fst (tags_step provider_versions item w) = Ok tt ->
  file_content TERRAFORM_SCRIPT_FILENAME (snd (tags_step provider_versions item w))
  = None.
Proof.
  intros Hok.
  destruct (tags_step_ok_generator _ _ _ Hok) as (d & Hitem & Heq).
  rewrite Heq in Hok |- *.
  destruct (tags_for_provider_ok_inv _ _ _ _ _ Hok)
    as (files & files' & Hfs & Hrun & Hthere).
  rewrite (tags_for_provider_succeeds _ _ _ _ _ _ _ Hfs Hrun Hthere).
  unfold file_content. cbn [snd fs]. apply lookup_delete_eq.
Qed.

Lemma for_each_ok_log {A} (body : A -> M unit) (events : A -> list event)
    (l : list A) :
  (forall x w, fst (body x w) = Ok tt -> log (snd (body x w)) = log w ++ events x) ->
  forall w, fst (for_each l body w) = Ok tt ->
            log (snd (for_each l body w)) = log w ++ flat_map events l.
Proof.
  intros Hbody. induction l as [|x l IH]; intros w; cbn [for_each flat_map].
  - intros _. cbn. now rewrite app_nil_r.
  - unfold bind. specialize (Hbody x w).
    destruct (body x w) as [[[]|e] w1]; cbn [fst snd] in *; [|discriminate].
    intros Hok. now rewrite (IH w1 Hok), Hbody, app_assoc.
Qed.

Lemma for_each_ok_last {A} (body : A -> M unit) (P : world -> Prop) (l : list A) :
  (forall x w, fst (body x w) = Ok tt -> P (snd (body x w))) ->
  forall w, fst (for_each l body w) = Ok tt ->
            l = [] \/ P (snd (for_each l body w)).
Proof.
  intros Hbody. induction l as [|x l IH]; intros w; [now left|].
  cbn [for_each]. unfold bind. specialize (Hbody x w).
  destruct (body x w) as [[[]|e] w1]; cbn [fst snd] in *; [|discriminate].
  intros Hok. right. destruct (IH w1 Hok) as [->|HP]; [|exact HP].
  cbn. now apply Hbody.
Qed.

(** What is known of a completed tag generation. *)
Lemma tags_ok_inv (w : world) :
  fst (_generate_terraform_tags w) = Ok tt ->
  exists provider_versions text top items,
    fst (read_provider_versions w) = Ok provider_versions
    /\ file_content TERRAFORM_SCHEMAS_FILENAME w = Some text
    /\ json_load text = Ok (PDict top)
    /\ Dict.get_default "provider_schemas" (PDict []) top = PDict items
    /\ _generate_terraform_tags w = for_each items (tags_step provider_versions) w.
Proof.
  rewrite tags_unfold.
  destruct (fst (read_provider_versions w)) as [vs|e]; [|discriminate].
  destruct (file_content TERRAFORM_SCHEMAS_FILENAME w) as [text|]; [|discriminate].
  destruct (json_load text) as [schemas|e] eqn:Hjson; [|discriminate].
  destruct schemas as [| | | | |top]; try discriminate.
  cbn [py_get].
  destruct (Dict.get_default "provider_schemas" (PDict []) top)
    as [| | | | |items] eqn:Hitems; try discriminate.
  cbn [py_items]. intros _. now exists vs, text, top, items.
Qed.

(** X13: a completed tag generation has processed the providers of the
    schema export one after the other in the order of the export, each by
    creating the synthetic file, writing its declarations, running the tag
    tool on it and removing it; providers that only the lock file lists are
    not processed. *)
Theorem tags_processes_providers_in_order (w : world) :
  fst (_generate_terraform_tags w) = Ok tt ->
  exists provider_versions text top items,
    fst (read_provider_versions w) = Ok provider_versions
    /\ file_content TERRAFORM_SCHEMAS_FILENAME w = Some text
    /\ json_load text = Ok (PDict top)
    /\ Dict.get_default "provider_schemas" (PDict []) top = PDict items
    /\ log (snd (_generate_terraform_tags w))
       = log w ++ flat_map (provider_events provider_versions) items.
Proof.
  intros Hok.
  destruct (tags_ok_inv _ Hok) as (vs & text & top & items & Hvs & Hfile & Hjson & Hitems & Heq).
  exists vs, text, top, items. repeat (split; [assumption|]).
  rewrite Heq in Hok |- *.
  exact (for_each_ok_log _ _ _ (tags_step_ok_log vs) w Hok).
Qed.

(** X14: after a completed tag generation the synthetic configuration is
    absent, unless no provider was processed, in which case the working
    directory is as it was (a synthetic file left by an aborted earlier run
    is then still there). *)
Theorem tags_leaves_no_synthetic_file (w : world) :
  fst (_generate_terraform_tags w) = Ok tt ->
  snd (_generate_terraform_tags w) = w
  \/ file_content TERRAFORM_SCRIPT_FILENAME (snd (_generate_terraform_tags w)) = None.
Proof.
  intros Hok.
  destruct (tags_ok_inv _ Hok) as (vs & text & top & items & _ & _ & _ & _ & Heq).
  rewrite Heq in Hok |- *.
  destruct (for_each_ok_last _
              (fun w' => file_content TERRAFORM_SCRIPT_FILENAME w' = None)
              items (tags_step_ok_clean vs) w Hok) as [->|Hclean].
  - now left.
  - now right.
Qed.

(** ** What the script never touches *)

Lemma confined_silent {A} (m : M A) :
  (forall w, snd (m w) = w) -> confined m.
Proof.
  intros H w. exists []. rewrite H, app_nil_r. split; [reflexivity|constructor].
Qed.

Lemma confined_one_event {A} (m : M A) (e : event) :
  permitted e ->
  (forall w, snd (m w) = w \/ log (snd (m w)) = log w ++ [e]) ->
  confined m.
Proof.
  intros He H w. destruct (H w) as [Hw|Hw].
  - exists []. rewrite Hw, app_nil_r. split; [reflexivity|constructor].
  - exists [e]. split; [exact Hw|]. now repeat constructor.
Qed.

Lemma confined_bind {A B} (m : M A) (k : A -> M B) :
  confined m -> (forall a, confined (k a)) -> confined (bind m k).
Proof.
  intros Hm Hk w. destruct (Hm w) as (e1 & Hl1 & Hp1). unfold bind.
  destruct (m w) as [[a|e] w1]; cbn [fst snd] in *.
  - destruct (Hk a w1) as (e2 & Hl2 & Hp2).
    exists (e1 ++ e2). split; [now rewrite Hl2, Hl1, app_assoc|].
    now apply Forall_app.
  - now exists e1.
Qed.

Lemma confined_for_each {A} (l : list A) (body : A -> M unit) :
  (forall x, confined (body x)) -> confined (for_each l body).
Proof.
  intros Hbody. induction l as [|x l IH]; cbn [for_each].
  - now apply confined_silent.
  - apply confined_bind; [apply Hbody|intros _; exact IH].
Qed.

Lemma confined_lift {A} (r : result A) : confined (lift r).
Proof. now apply confined_silent. Qed.

Lemma confined_read_file (name : string) : confined (read_file name).
Proof.
  apply confined_silent. intros w. now rewrite read_file_content.
Qed.

Lemma confined_open_w (name : string) : own_file name -> confined (open_w name).
Proof.
  intros Hown. apply (confined_one_event _ (EvOpen name)); [exact Hown|].
  intros w. unfold open_w. destruct (fs w); [now right|now left].
Qed.

Lemma confined_fwrite (name data : string) :
  written_file name -> confined (fwrite name data).
Proof.
  intros Hown. apply (confined_one_event _ (EvWrite name data)); [exact Hown|].
  intros w. now right.
Qed.

Lemma confined_check_call (argv : list arg) (stdout : option string) :
  confined (check_call argv stdout).
Proof.
  intros w. unfold check_call. destruct (fs w) as [files|].
  2:{ exists []. rewrite app_nil_r. split; [reflexivity|constructor]. }
  destruct (run_process argv stdout w) as [code left_behind].
  exists [EvExec argv stdout code].
  destruct (Z.eqb code 0); cbn [fst snd log];
    (split; [reflexivity|now repeat constructor]).
Qed.

Lemma confined_unlink_script : confined (unlink TERRAFORM_SCRIPT_FILENAME).
Proof.
  apply (confined_one_event _ (EvUnlink TERRAFORM_SCRIPT_FILENAME)); [reflexivity|].
  intros w. unfold unlink.
  destruct (fs w) as [files|]; [destruct (files !! _)|]; auto.
Qed.

Lemma confined_acquisition : confined _generate_terraform_provider_schemas.
Proof.
  unfold _generate_terraform_provider_schemas.
  apply confined_bind;
    [apply (confined_one_event _ EvMakedirs); [exact I|intros w; now right]|intros _].
  apply confined_bind; [apply confined_open_w; now left|intros _].
  apply confined_bind; [apply confined_fwrite; now left|intros _].
  apply confined_bind; [apply confined_check_call|intros _].
  apply confined_bind; [apply confined_open_w; right; now left|intros _].
  apply confined_check_call.
Qed.

Lemma confined_tags_for_provider (provider_spec : string) (provider_version : pyval)
    (resource_schemas data_source_schemas : list string) :
  confined (_generate_terraform_tags_for_provider
              provider_spec provider_version resource_schemas data_source_schemas).
Proof.
  assert (Hown : own_file TERRAFORM_SCRIPT_FILENAME) by (right; now right).
  assert (Hwr : written_file TERRAFORM_SCRIPT_FILENAME) by now right.
  unfold _generate_terraform_tags_for_provider.
  apply confined_bind; [now apply confined_open_w|intros _].
  apply confined_bind;
    [apply confined_for_each; intros x; now apply confined_fwrite|intros _].
  apply confined_bind;
    [apply confined_for_each; intros x; now apply confined_fwrite|intros _].
  apply confined_bind; [apply confined_check_call|intros _].
  apply confined_unlink_script.
Qed.

Lemma confined_tags : confined _generate_terraform_tags.
Proof.
  unfold _generate_terraform_tags.
  apply confined_bind.
  { unfold read_provider_versions.
    apply confined_bind; [apply confined_read_file|intros ?].
    repeat (apply confined_bind; [apply confined_lift|intros ?]).
    apply confined_lift. }
  intros vs. apply confined_bind; [apply confined_read_file|intros ?].
  repeat (apply confined_bind; [apply confined_lift|intros ?]).
  apply confined_for_each. intros item. unfold tags_step.
  repeat (apply confined_bind; [apply confined_lift|intros ?]).
  apply confined_tags_for_provider.
Qed.

(** X15: in a whole run the script itself creates, empties and writes only
    [main.tf], the schema export and the synthetic configuration, and it
    removes only the synthetic configuration; it never writes or removes
    the lock file or a tag file (those are left to the two tools). *)
Theorem script_touches_only_its_files (w : world) :
  exists evs : list event,
    log (snd (main w)) = log w ++ evs
    /\ (forall name, List.In (EvUnlink name) evs ->
                     name = TERRAFORM_SCRIPT_FILENAME)
    /\ (forall name, List.In (EvOpen name) evs ->
                     name = MAIN_TF \/ name = TERRAFORM_SCHEMAS_FILENAME
                     \/ name = TERRAFORM_SCRIPT_FILENAME)
    /\ (forall name data, List.In (EvWrite name data) evs ->
                     name = MAIN_TF \/ name = TERRAFORM_SCRIPT_FILENAME).
Proof.
  assert (Hmain : confined main).
  { unfold main. apply confined_bind; [apply confined_acquisition|intros _].
    apply confined_tags. }
  destruct (Hmain w) as (evs & Hlog & Hperm).
  exists evs. split; [exact Hlog|].
  rewrite List.Forall_forall in Hperm.
  split; [intros name Hin; exact (Hperm _ Hin)|].
  split; [intros name Hin; exact (Hperm _ Hin)|].
  intros name data Hin. exact (Hperm _ Hin).
Qed.

(** ** A completed run of the whole script *)



(** ** The length of the provider name *)

Lemma length_map_chars (f : ascii -> ascii) (s : string) :
  String.length (Text.map_chars f s) = String.length s.
Proof. induction s as [|c s IH]; [reflexivity|]. cbn. now rewrite IH. Qed.

Lemma length_replace_from_empty (old s : string) (skip : nat) :
  (String.length (Text.replace_from old EmptyString s skip) <= String.length s)%nat.
Proof.
  revert skip; induction s as [|c s IH]; intros skip; [reflexivity|].
  cbn [Text.replace_from String.length]. destruct skip as [|k].
  - destruct (Text.starts_with old (String c s)).
    + rewrite append_nil_l. specialize (IH (String.length old - 1)%nat). lia.
    + cbn [String.length]. specialize (IH 0%nat). lia.
  - specialize (IH k). lia.
Qed.

(** X17: the provider name is never longer than the provider spec. *)
Theorem provider_name_not_longer (provider_spec : string) :
  (String.length (provider_name provider_spec) <= String.length provider_spec)%nat.
Proof.
  rewrite provider_name_as_map, length_map_chars.
  unfold Text.replace, REGISTRY_PREFIX. cbn [Text.is_empty].
  apply length_replace_from_empty.
Qed.

End Script.

(** ** The properties on the sample environments *)

Lemma provider_name_single_prefix_witness :
  Text.occurs REGISTRY_PREFIX (Text.strip_leading_once REGISTRY_PREFIX AWS_PROVIDER) = false
  /\ provider_name AWS_PROVIDER = spec_provider_name AWS_PROVIDER.
Proof.
  split; [reflexivity|]. apply provider_name_single_prefix. reflexivity.
Defined.

Lemma synthetic_file_one_line_per_name_witness :
  List.NoDup sample_resources
  /\ List.NoDup sample_data_sources
  /\ fs empty_world = Some ∅
  /\ count_occ string_dec (script_lines sample_resources sample_data_sources)
       (resource_line "aws_vpc") = 1%nat
  /\ file_content TERRAFORM_SCRIPT_FILENAME
       (with_script (script_lines sample_resources sample_data_sources) ∅ empty_world)
     = Some (Text.join (script_lines sample_resources sample_data_sources)).
Proof.
  assert (Hr : List.NoDup sample_resources) by (apply NoDup_ListNoDup; compute_done).
  assert (Hd : List.NoDup sample_data_sources) by (apply NoDup_ListNoDup; compute_done).
  destruct (synthetic_file_one_line_per_name quiet_tool sample_format
              AWS_PROVIDER (PStr "5.0.0") sample_resources sample_data_sources
              empty_world ∅ Hr Hd eq_refl)
    as (_ & Hfile & Hcount & _).
  split; [exact Hr|]. split; [exact Hd|]. split; [reflexivity|].
  split; [apply Hcount; right; now left|exact Hfile].
Defined.

Lemma resources_precede_data_sources_witness :
  fs empty_world = Some ∅
  /\ exists started : world,
       log started
       = log empty_world ++ EvOpen TERRAFORM_SCRIPT_FILENAME
           :: map (fun r => EvWrite TERRAFORM_SCRIPT_FILENAME (resource_line r))
                sample_resources
           ++ map (fun d => EvWrite TERRAFORM_SCRIPT_FILENAME (data_line d))
                sample_data_sources.
Proof.
  split; [reflexivity|].
  destruct (resources_precede_data_sources quiet_tool sample_format
              AWS_PROVIDER (PStr "5.0.0") sample_resources sample_data_sources
              empty_world ∅ eq_refl)
    as (started & _ & Hlog & _).
  now exists started.
Defined.

Lemma synthetic_file_removed_witness :
  fst (_generate_terraform_tags_for_provider quiet_tool sample_format
         AWS_PROVIDER PNone [] [] empty_world) = Ok tt
  /\ file_content TERRAFORM_SCRIPT_FILENAME
       (snd (_generate_terraform_tags_for_provider quiet_tool sample_format
               AWS_PROVIDER PNone [] [] empty_world)) = None.
Proof.
  assert (Hok : fst (_generate_terraform_tags_for_provider quiet_tool sample_format
                       AWS_PROVIDER PNone [] [] empty_world) = Ok tt)
    by (vm_compute; reflexivity).
  split; [exact Hok|].
  exact (proj1 (synthetic_file_removed quiet_tool sample_format
                  AWS_PROVIDER PNone [] [] empty_world Hok)).
Defined.

Lemma missing_version_is_unknown_witness :
  (forall provider_data,
      List.In (AWS_PROVIDER, PDict provider_data)
        [(DNS_PROVIDER, PDict [("version", PStr "3.2.4");
                               ("hashes", PList [PStr "h1:abc"])])] ->
      Dict.get "version" provider_data = None)
  /\ fst (read_provider_versions sample_hcl_load sample_world)
     = Ok [(DNS_PROVIDER, PStr "3.2.4")]
  /\ tags_step quiet_tool sample_format [(DNS_PROVIDER, PStr "3.2.4")]
       (AWS_PROVIDER, PDict aws_schema) empty_world
     = bind (check_call quiet_tool
               [Str "ctags"; Str "-f";
                InWorkdir (provider_name AWS_PROVIDER +:+ "-unknown.hcl.tags");
                InWorkdir "generate_schemas_script.tf"] None)
            (fun _ => unlink TERRAFORM_SCRIPT_FILENAME)
         (with_script
            (script_lines (section_keys "resource_schemas" aws_schema)
                          (section_keys "data_source_schemas" aws_schema))
            ∅ empty_world).
Proof.
  assert (Habsent : forall provider_data,
             List.In (AWS_PROVIDER, PDict provider_data)
               [(DNS_PROVIDER, PDict [("version", PStr "3.2.4");
                                      ("hashes", PList [PStr "h1:abc"])])] ->
             Dict.get "version" provider_data = None).
  { intros provider_data [H|[]]. vm_compute in H. discriminate H. }
  assert (Hread : fst (read_provider_versions sample_hcl_load sample_world)
                  = Ok [(DNS_PROVIDER, PStr "3.2.4")])
    by (vm_compute; reflexivity).
  split; [exact Habsent|]. split; [exact Hread|].
  apply (missing_version_is_unknown quiet_tool sample_hcl_load sample_format
           sample_world "lock"
           [("provider",
             PDict [(DNS_PROVIDER, PDict [("version", PStr "3.2.4");
                                          ("hashes", PList [PStr "h1:abc"])])])]
           [(DNS_PROVIDER, PDict [("version", PStr "3.2.4");
                                  ("hashes", PList [PStr "h1:abc"])])]).
  - vm_compute. reflexivity.
  - reflexivity.
  - reflexivity.
  - exact Habsent.
  - exact Hread.
  - eexists. reflexivity.
  - exact I.
  - reflexivity.
Defined.

Lemma dns_scenario_witness :
  sample_files !! TERRAFORM_LOCK_FILENAME = Some "lock"
  /\ sample_files !! TERRAFORM_SCHEMAS_FILENAME = Some "schemas"
  /\ Text.splitlines (resource_line "dns_a_record_set")
     = [declaration "resource" "dns_a_record_set"]
  /\ _generate_terraform_tags quiet_tool sample_hcl_load sample_json_load sample_format
       sample_world
     = bind (check_call quiet_tool
               [Str "ctags"; Str "-f";
                InWorkdir "hashicorp_dns-3.2.4.hcl.tags";
                InWorkdir "generate_schemas_script.tf"] None)
            (fun _ => unlink "generate_schemas_script.tf")
         {| fs := Some (<["generate_schemas_script.tf" := resource_line "dns_a_record_set"]>
                          sample_files);
            log := [EvOpen "generate_schemas_script.tf";
                    EvWrite "generate_schemas_script.tf" (resource_line "dns_a_record_set")] |}.
Proof.
  assert (Hlock : sample_files !! TERRAFORM_LOCK_FILENAME = Some "lock")
    by (vm_compute; reflexivity).
  assert (Hschema : sample_files !! TERRAFORM_SCHEMAS_FILENAME = Some "schemas")
    by (vm_compute; reflexivity).
  destruct (dns_scenario quiet_tool sample_hcl_load sample_json_load sample_format
              sample_world sample_files "lock" "schemas"
              [("hashes", PList [PStr "h1:abc"])] (PDict [("version", PInt 0)])
              eq_refl Hlock Hschema eq_refl eq_refl)
    as [Hrun Hlines].
  split; [exact Hlock|]. split; [exact Hschema|].
  split; [exact Hlines|exact Hrun].
Defined.

Lemma missing_sections_default_to_empty_witness :
  Dict.get "resource_schemas" bare_schema = None
  /\ Dict.get "data_source_schemas" bare_schema = None
  /\ tags_step quiet_tool sample_format [] (DNS_PROVIDER, PDict bare_schema) empty_world
     = _generate_terraform_tags_for_provider quiet_tool sample_format
         DNS_PROVIDER PNone [] [] empty_world
  /\ fst (tags_step quiet_tool sample_format [] (DNS_PROVIDER, PDict bare_schema)
            empty_world) = Ok tt.
Proof.
  destruct (missing_sections_default_to_empty quiet_tool sample_format
              [] DNS_PROVIDER bare_schema empty_world)
    as (Hboth & _ & _ & Hok).
  split; [reflexivity|]. split; [reflexivity|].
  split; [exact (Hboth eq_refl eq_refl)|].
  apply (Hok ∅ (<[TERRAFORM_SCRIPT_FILENAME := EmptyString]> ∅)).
  - left. reflexivity.
  - exact I.
  - exact I.
  - reflexivity.
  - reflexivity.
  - rewrite lookup_insert_eq. now eexists.
Defined.

Lemma provider_versions_from_lock_file_witness :
  List.NoDup (Dict.keys mixed_entries)
  /\ Forall (fun e => is_dict (snd e)) mixed_entries
  /\ read_provider_versions mixed_hcl_load sample_world
     = (Ok [(DNS_PROVIDER, PStr "3.2.4"); (AWS_PROVIDER, PNone)], sample_world).
Proof.
  assert (Hnd : List.NoDup (Dict.keys mixed_entries))
    by (apply NoDup_ListNoDup; compute_done).
  assert (Hdict : Forall (fun e => is_dict (snd e)) mixed_entries)
    by (repeat constructor; eexists; reflexivity).
  split; [exact Hnd|]. split; [exact Hdict|].
  refine (proj1 (provider_versions_from_lock_file mixed_hcl_load sample_world "lock"
                   [("provider", PDict mixed_entries)] mixed_entries
                   _ eq_refl eq_refl Hnd Hdict)).
  vm_compute. reflexivity.
Defined.

Lemma tag_generation_repeatable_witness :
  fst (_generate_terraform_tags quiet_tool sample_hcl_load sample_json_load sample_format
         sample_world) = Ok tt
  /\ fst (_generate_terraform_tags quiet_tool sample_hcl_load sample_json_load sample_format
            later_world) = Ok tt
  /\ exists evs : list event,
       log (snd (_generate_terraform_tags quiet_tool sample_hcl_load sample_json_load
                   sample_format sample_world))
       = log sample_world ++ evs
       /\ log (snd (_generate_terraform_tags quiet_tool sample_hcl_load sample_json_load
                      sample_format later_world))
          = log later_world ++ evs.
Proof.
  assert (H1 : fst (_generate_terraform_tags quiet_tool sample_hcl_load sample_json_load
                      sample_format sample_world) = Ok tt)
    by (vm_compute; reflexivity).
  assert (H2 : fst (_generate_terraform_tags quiet_tool sample_hcl_load sample_json_load
                      sample_format later_world) = Ok tt)
    by (vm_compute; reflexivity).
  split; [exact H1|]. split; [exact H2|].
  apply tag_generation_repeatable; [vm_compute; reflexivity..|exact H1|exact H2].
Defined.

Lemma failing_process_aborts_run_witness :
  fs empty_world = Some ∅
  /\ _generate_terraform_tags_for_provider failing_tool sample_format
       AWS_PROVIDER (PStr "5.0.0") sample_resources sample_data_sources empty_world
     = (Raise (CalledProcessError 1
                 (ctags_argv sample_format AWS_PROVIDER (PStr "5.0.0"))),
        {| fs := Some (<[TERRAFORM_SCRIPT_FILENAME :=
                          Text.join (script_lines sample_resources sample_data_sources)]> ∅);
           log := log empty_world ++ EvOpen TERRAFORM_SCRIPT_FILENAME
                    :: map (EvWrite TERRAFORM_SCRIPT_FILENAME)
                         (script_lines sample_resources sample_data_sources)
                    ++ [EvExec (ctags_argv sample_format AWS_PROVIDER (PStr "5.0.0"))
                          None 1] |}).
Proof.
  split; [reflexivity|].
  apply (proj2 (failing_process_aborts_run failing_tool sample_hcl_load sample_json_load
                  sample_format)
           AWS_PROVIDER (PStr "5.0.0") sample_resources sample_data_sources
           empty_world ∅ 1%Z).
  - reflexivity.
  - reflexivity.
  - discriminate.
Defined.

(** ** The further properties on the sample environments *)

Lemma provider_name_idempotent_witness :
  Text.contains_char "/" "hashicorp_aws" = false
  /\ provider_name "hashicorp_aws" = "hashicorp_aws".
Proof.
  split; [reflexivity|].
  apply (proj1 (provider_name_idempotent "hashicorp_aws")). reflexivity.
Defined.

Lemma falsy_version_is_unknown_witness :
  py_truthy (PStr EmptyString) = false
  /\ ctags_argv sample_format AWS_PROVIDER (PStr EmptyString)
     = [Str "ctags"; Str "-f";
        InWorkdir (provider_name AWS_PROVIDER +:+ "-unknown.hcl.tags");
        InWorkdir "generate_schemas_script.tf"].
Proof.
  split; [reflexivity|].
  exact (proj1 (proj2 (falsy_version_is_unknown quiet_tool sample_format
                         AWS_PROVIDER (PStr EmptyString) [] [] empty_world eq_refl))).
Defined.

Lemma tool_removed_synthetic_file_witness :
  fs empty_world = Some ∅
  /\ fst (_generate_terraform_tags_for_provider cleaning_tool sample_format
            AWS_PROVIDER PNone sample_resources [] empty_world)
     = Raise (FileNotFoundError TERRAFORM_SCRIPT_FILENAME).
Proof.
  split; [reflexivity|].
  rewrite (tool_removed_synthetic_file cleaning_tool sample_format
             AWS_PROVIDER PNone sample_resources [] empty_world ∅
             (Some (delete TERRAFORM_SCRIPT_FILENAME
                      (<[TERRAFORM_SCRIPT_FILENAME :=
                           Text.join (script_lines sample_resources [])]> ∅)))
             eq_refl eq_refl).
  - reflexivity.
  - apply lookup_delete_eq.
Defined.

Lemma acquisition_prepares_directory_witness :
  TERRAFORM_LOCK_FILENAME <> MAIN_TF
  /\ file_content TERRAFORM_LOCK_FILENAME (prepared sample_world)
     = file_content TERRAFORM_LOCK_FILENAME sample_world.
Proof.
  assert (Hne : TERRAFORM_LOCK_FILENAME <> MAIN_TF) by discriminate.
  split; [exact Hne|].
  exact (proj2 (proj2 (acquisition_prepares_directory quiet_tool sample_world))
           TERRAFORM_LOCK_FILENAME Hne).
Defined.

Lemma init_failure_skips_export_witness :
  failing_tool terraform_init None (prepared sample_world)
  = (1%Z, fs (prepared sample_world))
  /\ fst (_generate_terraform_provider_schemas failing_tool sample_world)
     = Raise (CalledProcessError 1 terraform_init).
Proof.
  split; [reflexivity|].
  rewrite (init_failure_skips_export failing_tool sample_world 1%Z
             (fs (prepared sample_world)) eq_refl); [reflexivity|discriminate].
Defined.

Lemma export_runs_on_emptied_file_witness :
  quiet_tool terraform_init None (prepared sample_world)
  = (0%Z, fs (prepared sample_world))
  /\ fst (_generate_terraform_provider_schemas quiet_tool sample_world) = Ok tt
  /\ file_content TERRAFORM_SCHEMAS_FILENAME
       (snd (_generate_terraform_provider_schemas quiet_tool sample_world))
     = Some EmptyString.
Proof.
  split; [reflexivity|].
  destruct (export_runs_on_emptied_file quiet_tool sample_world
              (<[MAIN_TF := TERRAFORM_PROVIDERS_SCRIPT]> sample_files) 0%Z
              (Some (<[TERRAFORM_SCHEMAS_FILENAME := EmptyString]>
                       (<[MAIN_TF := TERRAFORM_PROVIDERS_SCRIPT]> sample_files)))
              eq_refl eq_refl) as [_ Hrun].
  rewrite Hrun. split; [reflexivity|].
  unfold file_content. cbn [snd fs]. apply lookup_insert_eq.
Defined.

Lemma tags_missing_inputs_witness :
  file_content TERRAFORM_LOCK_FILENAME empty_world = None
  /\ _generate_terraform_tags quiet_tool sample_hcl_load sample_json_load sample_format
       empty_world
     = (Raise (FileNotFoundError TERRAFORM_LOCK_FILENAME), empty_world).
Proof.
  assert (H : file_content TERRAFORM_LOCK_FILENAME empty_world = None)
    by (vm_compute; reflexivity).
  split; [exact H|].
  exact (proj1 (tags_missing_inputs quiet_tool sample_hcl_load sample_json_load
                  sample_format empty_world) H).
Defined.

Lemma tags_unusable_lock_file_witness :
  file_content TERRAFORM_LOCK_FILENAME sample_world = Some "lock"
  /\ _generate_terraform_tags quiet_tool failing_hcl_load sample_json_load sample_format
       sample_world
     = (Raise (ParseError "line 1"), sample_world).
Proof.
  assert (H : file_content TERRAFORM_LOCK_FILENAME sample_world = Some "lock")
    by (vm_compute; reflexivity).
  split; [exact H|].
  exact (proj1 (tags_unusable_lock_file quiet_tool failing_hcl_load sample_json_load
                  sample_format sample_world "lock" H)
           (ParseError "line 1") eq_refl).
Defined.

Lemma present_non_mapping_raises_witness :
  Dict.get "resource_schemas" null_schema = Some PNone
  /\ ~ is_dict PNone
  /\ tags_step quiet_tool sample_format [] (DNS_PROVIDER, PDict null_schema) empty_world
     = (Raise (AttributeError "keys"), empty_world).
Proof.
  assert (Hnot : ~ is_dict PNone) by (intros [d Hd]; discriminate Hd).
  split; [reflexivity|]. split; [exact Hnot|].
  exact (proj1 (proj2 (present_non_mapping_raises quiet_tool sample_format
                         [] DNS_PROVIDER empty_world))
           null_schema PNone eq_refl Hnot).
Defined.

Lemma no_providers_no_effect_witness :
  fst (read_provider_versions sample_hcl_load sample_world)
  = Ok [(DNS_PROVIDER, PStr "3.2.4")]
  /\ file_content TERRAFORM_SCHEMAS_FILENAME sample_world = Some "schemas"
  /\ _generate_terraform_tags quiet_tool sample_hcl_load empty_json_load sample_format
       sample_world
     = (Ok tt, sample_world).
Proof.
  assert (Hvs : fst (read_provider_versions sample_hcl_load sample_world)
                = Ok [(DNS_PROVIDER, PStr "3.2.4")]) by (vm_compute; reflexivity).
  assert (Hfile : file_content TERRAFORM_SCHEMAS_FILENAME sample_world = Some "schemas")
    by (vm_compute; reflexivity).
  split; [exact Hvs|]. split; [exact Hfile|].
  exact (no_providers_no_effect quiet_tool sample_hcl_load empty_json_load sample_format
           sample_world _ "schemas" [("format_version", PStr "1.0")]
           Hvs Hfile eq_refl eq_refl).
Defined.

Lemma tags_processes_providers_in_order_witness :
  fst (_generate_terraform_tags quiet_tool sample_hcl_load sample_json_load sample_format
         sample_world) = Ok tt
  /\ exists provider_versions items,
       log (snd (_generate_terraform_tags quiet_tool sample_hcl_load sample_json_load
                   sample_format sample_world))
       = log sample_world
         ++ flat_map (provider_events sample_format provider_versions) items.
Proof.
  assert (Hok : fst (_generate_terraform_tags quiet_tool sample_hcl_load sample_json_load
                       sample_format sample_world) = Ok tt) by (vm_compute; reflexivity).
  split; [exact Hok|].
  destruct (tags_processes_providers_in_order quiet_tool sample_hcl_load sample_json_load
              sample_format sample_world Hok)
    as (vs & text & top & items & _ & _ & _ & _ & Hlog).
  now exists vs, items.
Defined.

Lemma tags_leaves_no_synthetic_file_witness :
  fst (_generate_terraform_tags quiet_tool sample_hcl_load sample_json_load sample_format
         sample_world) = Ok tt
  /\ (snd (_generate_terraform_tags quiet_tool sample_hcl_load sample_json_load
             sample_format sample_world) = sample_world
      \/ file_content TERRAFORM_SCRIPT_FILENAME
           (snd (_generate_terraform_tags quiet_tool sample_hcl_load sample_json_load
                   sample_format sample_world)) = None).
Proof.
  assert (Hok : fst (_generate_terraform_tags quiet_tool sample_hcl_load sample_json_load
                       sample_format sample_world) = Ok tt) by (vm_compute; reflexivity).
  split; [exact Hok|].
  exact (tags_leaves_no_synthetic_file quiet_tool sample_hcl_load sample_json_load
           sample_format sample_world Hok).
Defined.

Lemma script_touches_only_its_files_witness :
  ~ List.In (EvUnlink TERRAFORM_LOCK_FILENAME)
      (log (snd (main quiet_tool sample_hcl_load sample_json_load sample_format
                   sample_world))).
Proof.
  destruct (script_touches_only_its_files quiet_tool sample_hcl_load sample_json_load
              sample_format sample_world) as (evs & Hlog & Hunlink & _).
  cbn [sample_world log app] in Hlog. rewrite Hlog.
  intros Hin. apply Hunlink in Hin. discriminate Hin.
Defined.

